(** * Meta CAPI proxy: the event normalisation and hashing pipeline

    A shallow embedding of [src/main.py]: the Python values that travel
    through the pipeline, the exceptions the code can raise, the standard
    library calls it relies on ([str.strip], [str.lower], [hashlib.sha256],
    [float], [ipaddress.ip_address], [re.match]) and the five functions
    [hash_data], [validate_and_clean_data], [hash_user_data],
    [build_meta_payload] and [process_event].

    Modelling conventions.
    - A Python [str] is a Rocq [string] holding its UTF-8 bytes, so
      [.encode()] is the list of those bytes.  [strip], [lower], [\d] and the
      digit tests act on the ASCII range, where they coincide with Python's;
      bytes above 127 are carried through untouched.
    - A Python [dict] is a [gmap string pyval]; a JSON document is a [pyval].
    - A Python float is a [spec_float] of binary64 (precision 53, emax 1024).
    - A call that may raise returns a [result]. *)

From Stdlib Require Import ZArith String Ascii List SpecFloat Lia.
From stdpp Require Import base option gmap strings list.

Set Warnings "-register-all".
Local Open Scope string_scope.
Local Open Scope Z_scope.

(** ** Exceptions and results *)

Inductive exn : Type :=
| AttributeError
| TypeError
| ValueError
| OverflowError
| HTTPException (status_code : Z) (request_id message : string)
| RequestException (err : string).

Inductive result (A : Type) : Type :=
| Ok (a : A)
| Raise (e : exn).
Arguments Ok {A} a.
Arguments Raise {A} e.

#[global] Instance result_ret : MRet result := fun _ a => Ok a.

#[global] Instance result_bind : MBind result := fun _ _ k m =>
  match m with
  | Ok a => k a
  | Raise e => Raise e
  end.

Definition is_ok {A : Type} (m : result A) : bool :=
  match m with Ok _ => true | Raise _ => false end.

(** ** Python values *)

Inductive pyval : Type :=
| PNone
| PBool (b : bool)
| PInt (z : Z)
| PFloat (x : spec_float)
| PStr (s : string)
| PList (l : list pyval)
| PDict (d : gmap string pyval).

Abbreviation pydict := (gmap string pyval).

(** [bool(v)]: the truth value Python gives to [v] in [if v], [not v],
    [v or w]. *)
Definition truthy (v : pyval) : bool :=
  match v with
  | PNone => false
  | PBool b => b
  | PInt z => negb (z =? 0)
  | PFloat (S754_zero _) => false
  | PFloat _ => true
  | PStr s => negb (String.eqb s "")
  | PList l => match l with [] => false | _ => true end
  | PDict d => negb (bool_decide (d = ∅))
  end.

(** [a or b] *)
Definition py_or (a b : pyval) : pyval := if truthy a then a else b.

(** [d.get(k, default)] *)
Definition dict_get (d : pydict) (k : string) (default : pyval) : pyval :=
  match d !! k with
  | Some v => v
  | None => default
  end.

(** ** Strings *)

Definition code (c : ascii) : Z := Z.of_N (N_of_ascii c).

(** [str.isspace] on one ASCII character: TAB, LF, VT, FF, CR, the four
    separators 0x1c-0x1f and the space. *)
Definition is_space (c : ascii) : bool :=
  let n := code c in
  ((9 <=? n) && (n <=? 13)) || ((28 <=? n) && (n <=? 32)).

Definition is_digit (c : ascii) : bool :=
  let n := code c in (48 <=? n) && (n <=? 57).

Definition lower_char (c : ascii) : ascii :=
  let n := code c in
  if (65 <=? n) && (n <=? 90) then ascii_of_N (Z.to_N (n + 32)) else c.

Fixpoint lower (s : string) : string :=
  match s with
  | EmptyString => EmptyString
  | String c s' => String (lower_char c) (lower s')
  end.

Fixpoint lstrip (s : string) : string :=
  match s with
  | EmptyString => EmptyString
  | String c s' => if is_space c then lstrip s' else s
  end.

Fixpoint rstrip (s : string) : string :=
  match s with
  | EmptyString => EmptyString
  | String c s' =>
      match rstrip s' with
      | EmptyString => if is_space c then EmptyString else String c EmptyString
      | r => String c r
      end
  end.

Definition strip (s : string) : string := rstrip (lstrip s).

(** [s.encode()]: the UTF-8 bytes of [s]. *)
Definition encode (s : string) : list Byte.byte := list_byte_of_string s.

(** ** SHA-256 ([hashlib.sha256(...).hexdigest()])

    FIPS 180-4 on 32-bit words held in [Z], every addition reduced modulo
    [2^32]. *)

Module SHA256.

Definition wrap (x : Z) : Z := x mod 2 ^ 32.
Definition add32 (x y : Z) : Z := wrap (x + y).
Definition rotr (n x : Z) : Z :=
  Z.lor (Z.shiftr x n) (wrap (Z.shiftl x (32 - n))).
Definition not32 (x : Z) : Z := Z.lxor x 0xffffffff.

Definition Ch (x y z : Z) : Z := Z.lxor (Z.land x y) (Z.land (not32 x) z).
Definition Maj (x y z : Z) : Z :=
  Z.lxor (Z.lxor (Z.land x y) (Z.land x z)) (Z.land y z).
Definition Sigma0 (x : Z) : Z := Z.lxor (Z.lxor (rotr 2 x) (rotr 13 x)) (rotr 22 x).
Definition Sigma1 (x : Z) : Z := Z.lxor (Z.lxor (rotr 6 x) (rotr 11 x)) (rotr 25 x).
Definition sigma0 (x : Z) : Z := Z.lxor (Z.lxor (rotr 7 x) (rotr 18 x)) (Z.shiftr x 3).
Definition sigma1 (x : Z) : Z := Z.lxor (Z.lxor (rotr 17 x) (rotr 19 x)) (Z.shiftr x 10).

(** The round constants are the first 32 bits of the fractional parts of
    the cube roots of the first sixty-four primes, and the initial hash value
    those of the square roots of the first eight. *)
Definition primes : list Z :=
  [ 2; 3; 5; 7; 11; 13; 17; 19; 23; 29; 31; 37; 41; 43; 47; 53; 59; 61; 67; 71;
    73; 79; 83; 89; 97; 101; 103; 107; 109; 113; 127; 131; 137; 139; 149; 151;
    157; 163; 167; 173; 179; 181; 191; 193; 197; 199; 211; 223; 227; 229; 233;
    239; 241; 251; 257; 263; 269; 271; 277; 281; 283; 293; 307; 311 ].

(** Integer cube root by bisection: the largest [r] in [lo, hi) with
    [r^3 <= n]. *)
Fixpoint cbrt_between (fuel : nat) (lo hi n : Z) : Z :=
  match fuel with
  | O => lo
  | S fuel' =>
      let mid := (lo + hi) / 2 in
      if mid * mid * mid <=? n then cbrt_between fuel' mid hi n
      else cbrt_between fuel' lo mid n
  end.

Definition frac_cbrt32 (p : Z) : Z := wrap (cbrt_between 40 0 (2 ^ 36) (p * 2 ^ 96)).
Definition frac_sqrt32 (p : Z) : Z := wrap (Z.sqrt (p * 2 ^ 64)).

Definition K : list Z := map frac_cbrt32 primes.

Record state : Type := State { ha : Z; hb : Z; hc : Z; hd : Z; he : Z; hf : Z; hg : Z; hh : Z }.

Definition H0 : state :=
  State (frac_sqrt32 2) (frac_sqrt32 3) (frac_sqrt32 5) (frac_sqrt32 7)
        (frac_sqrt32 11) (frac_sqrt32 13) (frac_sqrt32 17) (frac_sqrt32 19).

Definition round (st : state) (k w : Z) : state :=
  let t1 := wrap (hh st + Sigma1 (he st) + Ch (he st) (hf st) (hg st) + k + w) in
  let t2 := wrap (Sigma0 (ha st) + Maj (ha st) (hb st) (hc st)) in
  State (add32 t1 t2) (ha st) (hb st) (hc st) (add32 (hd st) t1) (he st) (hf st) (hg st).

(** The message schedule is kept as a sliding window of sixteen words: the
    head is [W_t], and [W_(t+16)] is appended as the head is consumed. *)
Fixpoint rounds (ks : list Z) (win : list Z) (st : state) : state :=
  match ks with
  | [] => st
  | k :: ks' =>
      let w := nth 0 win 0 in
      let nxt := wrap (sigma1 (nth 14 win 0) + nth 9 win 0 + sigma0 (nth 1 win 0) + w) in
      rounds ks' (tl win ++ [nxt]) (round st k w)
  end.

Definition compress (st : state) (block : list Z) : state :=
  let r := rounds K block st in
  State (add32 (ha st) (ha r)) (add32 (hb st) (hb r)) (add32 (hc st) (hc r))
        (add32 (hd st) (hd r)) (add32 (he st) (he r)) (add32 (hf st) (hf r))
        (add32 (hg st) (hg r)) (add32 (hh st) (hh r)).

Definition byte_val (b : Byte.byte) : Z := Z.of_N (Byte.to_N b).

(** Big-endian bytes of the 64-bit bit length. *)
Definition length_bytes (bits : Z) : list Z :=
  map (fun i => Z.land (Z.shiftr bits (8 * i)) 0xff) [7; 6; 5; 4; 3; 2; 1; 0].

Definition pad (msg : list Byte.byte) : list Z :=
  let len := Z.of_nat (length msg) in
  map byte_val msg ++ [0x80] ++ repeat 0 (Z.to_nat ((55 - len) mod 64))
    ++ length_bytes (8 * len).

Fixpoint words (bs : list Z) : list Z :=
  match bs with
  | b0 :: b1 :: b2 :: b3 :: rest =>
      (Z.shiftl b0 24 + Z.shiftl b1 16 + Z.shiftl b2 8 + b3) :: words rest
  | _ => []
  end.

Fixpoint blocks (n : nat) (ws : list Z) (st : state) : state :=
  match n with
  | O => st
  | S n' => blocks n' (skipn 16 ws) (compress st (firstn 16 ws))
  end.

Definition digest (msg : list Byte.byte) : state :=
  let ws := words (pad msg) in
  blocks (length ws / 16)%nat ws H0.

Definition hex_digit (n : Z) : ascii :=
  if n <? 10 then ascii_of_N (Z.to_N (48 + n)) else ascii_of_N (Z.to_N (87 + n)).

Definition nibble (w i : Z) : ascii := hex_digit (Z.land (Z.shiftr w (4 * i)) 0xf).

Definition hex8 (w : Z) (tail : string) : string :=
  String (nibble w 7) (String (nibble w 6) (String (nibble w 5) (String (nibble w 4)
  (String (nibble w 3) (String (nibble w 2) (String (nibble w 1) (String (nibble w 0) tail))))))).

Definition hexdigest (msg : list Byte.byte) : string :=
  let st := digest msg in
  hex8 (ha st) (hex8 (hb st) (hex8 (hc st) (hex8 (hd st)
  (hex8 (he st) (hex8 (hf st) (hex8 (hg st) (hex8 (hh st) EmptyString))))))).

End SHA256.

(** A digest as the provider expects it: 64 characters among [0-9a-f]. *)
Definition is_lower_hex (c : ascii) : bool :=
  let n := code c in
  ((48 <=? n) && (n <=? 57)) || ((97 <=? n) && (n <=? 102)).

Definition is_hex64 (s : string) : Prop :=
  String.length s = 64%nat /\ forallb is_lower_hex (list_ascii_of_string s) = true.

(** ** Canonicalizer: [hash_data] *)

Definition hash_data (value : pyval) : result string :=
  if negb (truthy value) then Ok ""
  else
    match value with
    | PStr s => Ok (SHA256.hexdigest (encode (lower (strip s))))
    | _ => Raise AttributeError (* no attribute 'strip' *)
    end.

(** ** PIIHasher: [hash_user_data] *)

(** The literal [pii_fields] dict, in the order it is written. *)
Definition pii_fields (user_data : pydict) : list (string * pyval) :=
  [ ("em", dict_get user_data "email" (PStr ""));
    ("fn", dict_get user_data "first_name" (PStr ""));
    ("ln", dict_get user_data "last_name" (PStr ""));
    ("ph", dict_get user_data "phone" (PStr ""));
    ("country", dict_get user_data "country" (PStr ""));
    ("ct", dict_get user_data "city" (PStr ""));
    ("zp", dict_get user_data "zip" (PStr ""));
    ("external_id", dict_get user_data "external_id" (PStr "")) ].

(** [{k: hash_data(v) for k, v in items if v}], built entry by entry; the
    first [hash_data] that raises aborts the comprehension. *)
Fixpoint hash_items (items : list (string * pyval)) (acc : pydict) : result pydict :=
  match items with
  | [] => Ok acc
  | (k, v) :: rest =>
      if truthy v then
        match hash_data v with
        | Ok d => hash_items rest (<[k := PStr d]> acc)
        | Raise e => Raise e
        end
      else hash_items rest acc
  end.

(** The [logger.info] summary line has no effect on the value returned. *)
Definition hash_user_data (user_data : pydict) (request_id : string) : result pydict :=
  hash_items (pii_fields user_data) ∅.

(** Provider key and the human-readable source field it is read from. *)
Definition field_map : list (string * string) :=
  [ ("em", "email"); ("fn", "first_name"); ("ln", "last_name"); ("ph", "phone");
    ("country", "country"); ("ct", "city"); ("zp", "zip");
    ("external_id", "external_id") ].

(** ** [float(v)] *)

Definition float_zero : spec_float := S754_zero false.

(** [float(n)] for an [int]: round to nearest even; a magnitude that rounds
    to [2^1024] raises [OverflowError]. *)
Definition float_of_Z (z : Z) : result spec_float :=
  match binary_normalize 53 1024 z 0 false with
  | S754_infinity _ => Raise OverflowError
  | x => Ok x
  end.

(** The correctly rounded binary64 nearest to [m * 10^e10]; out of range it
    is an infinity or a zero, as [strtod] gives. *)
Definition float_of_decimal (neg : bool) (m e10 : Z) : spec_float :=
  if m =? 0 then S754_zero neg
  else
    let sm := if neg then - m else m in
    if 0 <=? e10 then binary_normalize 53 1024 (sm * 10 ^ e10) 0 neg
    else
      let den := 10 ^ (- e10) in
      let sh := Z.max 0 (Z.log2 den - Z.log2 m + 66) in
      let q := (m * 2 ^ sh) / den in
      let sticky := if (m * 2 ^ sh) mod den =? 0 then 0 else 1 in
      let x := 2 * q + sticky in
      binary_normalize 53 1024 (if neg then - x else x) (- sh - 1) neg.

(** Underscores in a numeric literal: each one sits between two digits.
    Returns the text without them. *)
Fixpoint drop_underscores (prev : ascii) (s : string) : option string :=
  match s with
  | EmptyString => if Ascii.eqb prev "_" then None else Some EmptyString
  | String c s' =>
      if Ascii.eqb c "_" then
        if is_digit prev then drop_underscores c s' else None
      else if Ascii.eqb prev "_" && negb (is_digit c) then None
      else option_map (String c) (drop_underscores c s')
  end.

(** Leading decimal digits of [s]: their value on top of [acc], how many
    there are, and the rest of the text. *)
Fixpoint digits (s : string) (acc : Z) (n : Z) : Z * Z * string :=
  match s with
  | String c s' =>
      if is_digit c then digits s' (10 * acc + (code c - 48)) (n + 1)
      else (acc, n, s)
  | EmptyString => (acc, n, s)
  end.

Definition signed (s : string) : bool * string :=
  match s with
  | String "-" s' => (true, s')
  | String "+" s' => (false, s')
  | _ => (false, s)
  end.

Definition exponent (s : string) : option Z :=
  match s with
  | EmptyString => Some 0
  | String c s' =>
      if Ascii.eqb (lower_char c) "e" then
        let '(neg, r) := signed s' in
        match digits r 0 0 with
        | (v, n, EmptyString) => if 0 <? n then Some (if neg then - v else v) else None
        | _ => None
        end
      else None
  end.

Definition float_literal (s : string) : option spec_float :=
  let '(neg, body) := signed s in
  let low := lower body in
  if String.eqb low "inf" || String.eqb low "infinity" then Some (S754_infinity neg)
  else if String.eqb low "nan" then Some S754_nan
  else
    let '(ip, ni, r1) := digits body 0 0 in
    let '(m, nf, r2) :=
      match r1 with
      | String "." r => let '(m, nf, r2) := digits r ip 0 in (m, nf, r2)
      | _ => (ip, 0, r1)
      end in
    if 0 <? ni + nf then
      match exponent r2 with
      | Some e => Some (float_of_decimal neg m (e - nf))
      | None => None
      end
    else None.

(** [float(s)] for a [str]: [None] stands for [ValueError]. *)
Definition float_of_string (s : string) : option spec_float :=
  match drop_underscores " " (strip s) with
  | Some t => float_literal t
  | None => None
  end.

Definition py_float (v : pyval) : result spec_float :=
  match v with
  | PNone => Raise TypeError
  | PBool b => float_of_Z (if b then 1 else 0)
  | PInt z => float_of_Z z
  | PFloat x => Ok x
  | PStr s => match float_of_string s with Some x => Ok x | None => Raise ValueError end
  | PList _ => Raise TypeError
  | PDict _ => Raise TypeError
  end.

(** [str(v).lower() == 'null'].  Only a [str] can print as the four
    letters: [None] is filtered before the test, [True]/[False], numbers
    (digits, sign, [.], [e], [inf], [nan]), lists ([[...]]) and dicts
    ([{...}]) never do. *)
Definition str_lower_is_null (v : pyval) : bool :=
  match v with
  | PStr s => String.eqb (lower s) "null"
  | _ => false
  end.

Definition is_None (v : pyval) : bool :=
  match v with PNone => true | _ => false end.

(** ** FieldValidators *)

Fixpoint split (sep : ascii) (s : string) : list string :=
  match s with
  | EmptyString => [EmptyString]
  | String c s' =>
      if Ascii.eqb c sep then EmptyString :: split sep s'
      else
        match split sep s' with
        | h :: t => String c h :: t
        | [] => [String c EmptyString]
        end
  end.

Fixpoint contains (c : ascii) (s : string) : bool :=
  match s with
  | EmptyString => false
  | String c' s' => Ascii.eqb c c' || contains c s'
  end.

Fixpoint all_chars (p : ascii -> bool) (s : string) : bool :=
  match s with
  | EmptyString => true
  | String c s' => p c && all_chars p s'
  end.

Definition slen (s : string) : Z := Z.of_nat (String.length s).

Module IPAddress.

(** [IPv4Address._parse_octet]: decimal digits, at most three, no leading
    zero, value at most 255. *)
Definition parse_octet (o : string) : bool :=
  negb (String.eqb o "")
  && all_chars is_digit o
  && (slen o <=? 3)
  && (String.eqb o "0" || negb (String.eqb (substring 0 1 o) "0"))
  && (fst (fst (digits o 0 0)) <=? 255).

Definition ipv4 (s : string) : bool :=
  negb (contains "/" s)
  && negb (String.eqb s "")
  && (let octets := split "." s in
      (Z.of_nat (length octets) =? 4) && forallb parse_octet octets).

Definition is_hex_char (c : ascii) : bool :=
  let n := code c in
  is_digit c || ((97 <=? n) && (n <=? 102)) || ((65 <=? n) && (n <=? 70)).

(** [IPv6Address._parse_hextet] *)
Definition parse_hextet (h : string) : bool :=
  all_chars is_hex_char h && (slen h <=? 4) && negb (String.eqb h "").

(** [IPv6Address._split_scope_id]: the address part, or [None] when the
    zone after [%] is empty or holds another [%]. *)
Definition split_scope_id (s : string) : option string :=
  match split "%" s with
  | [addr] => Some addr
  | [addr; zone] => if String.eqb zone "" then None else Some addr
  | _ => None
  end.

(** A dotted-quad last part is replaced by the two hextets it denotes; only
    their well-formedness matters here, so ["0"] stands for each. *)
Definition ipv4_suffix (parts : list string) : option (list string) :=
  let lst := List.last parts "" in
  if contains "." lst then
    if ipv4 lst then Some (removelast parts ++ ["0"; "0"])%list else None
  else Some parts.

(** Positions [1 .. len-2] that hold an empty part. *)
Definition inner_empties (parts : list string) : list nat :=
  filter (fun i => String.eqb (nth i parts "x") "")
         (seq 1 (length parts - 2)).

Definition ipv6_parts (parts : list string) : bool :=
  let n := Z.of_nat (length parts) in
  let first_empty := String.eqb (hd "" parts) "" in
  let last_empty := String.eqb (List.last parts "") "" in
  match inner_empties parts with
  | [] =>
      (n =? 8) && negb first_empty && negb last_empty
      && forallb parse_hextet parts
  | [skip] =>
      let hi0 := Z.of_nat skip in
      let lo0 := n - hi0 - 1 in
      let hi := if first_empty then hi0 - 1 else hi0 in
      let lo := if last_empty then lo0 - 1 else lo0 in
      (negb first_empty || (hi =? 0))
      && (negb last_empty || (lo =? 0))
      && (1 <=? 8 - (hi + lo))
      && forallb parse_hextet (firstn (Z.to_nat hi) parts)
      && forallb parse_hextet (skipn (length parts - Z.to_nat lo) parts)
  | _ => false
  end.

Definition ipv6 (s : string) : bool :=
  negb (contains "/" s)
  && match split_scope_id s with
     | None => false
     | Some addr =>
         negb (String.eqb addr "")
         && (let parts := split ":" addr in
             (3 <=? Z.of_nat (length parts))
             && match ipv4_suffix parts with
                | None => false
                | Some parts' =>
                    (Z.of_nat (length parts') <=? 9) && ipv6_parts parts'
                end)
     end.

(** [ipaddress.ip_address(s)] returns (rather than raising [ValueError]). *)
Definition ip_address (s : string) : bool := ipv4 s || ipv6 s.

End IPAddress.

(** [FBP_REGEX.match(s)] for [^fb\.1\.\d+\.\d+$]: without [re.MULTILINE],
    [$] also matches just before a final newline. *)
Definition FBP_REGEX_match (s : string) : bool :=
  String.eqb (substring 0 5 s) "fb.1."
  && (let '(_, n1, r1) := digits (substring 5 (String.length s) s) 0 0 in
      (0 <? n1)
      && match r1 with
         | String "." r2 =>
             let '(_, n2, r3) := digits r2 0 0 in
             (0 <? n2) && (String.eqb r3 "" || String.eqb r3 (String "010" ""))
         | _ => false
         end).

(** ** Data model *)

(** [ClientPayload], after pydantic validation of the typed fields. *)
Record ClientPayload : Type := {
  event_name : string;
  event_time : Z;
  event_source_url : option string;
  action_source : string;
  user_data : pydict;
  custom_data : option pydict;
  test_event_code : option string
}.

(** What [extract_client_info] reads of the [Request]: two headers and
    [request.client]. *)
Record Request : Type := {
  x_forwarded_for : option string;
  user_agent_header : option string;
  client_host : option string
}.

(** The dict returned by [extract_client_info]. *)
Record ClientInfo : Type := {
  ip : string;
  user_agent : pyval
}.

(** The dict returned by [validate_and_clean_data]. *)
Record ValidatedData : Type := {
  client_ip : string;
  client_user_agent : pyval;
  fbp : pyval;
  fbc : pyval;
  cleaned_custom_data : pydict
}.

Definition opt_truthy (o : option string) : bool :=
  match o with
  | Some s => negb (String.eqb s "")
  | None => false
  end.

(** ** RequestSignalExtractor: [extract_client_info] *)

Definition extract_client_info (request : Request) (payload : ClientPayload)
  : result ClientInfo :=
  client_ip ←
    (if opt_truthy (x_forwarded_for request)
     then Ok (strip (hd "" (split "," (default "" (x_forwarded_for request)))))
     else match client_host request with
          | Some h => Ok h
          | None => Raise AttributeError
          end);
  Ok {| ip := client_ip;
        user_agent := py_or (dict_get (user_data payload) "user_agent" PNone)
                            (PStr (default "" (user_agent_header request))) |}.

(** ** EventSanitizer: [validate_and_clean_data] *)

Definition currency_required (request_id : string) : exn :=
  HTTPException 422 request_id "Currency is required when value is provided.".

(** Step (a): the origin address. *)
Definition clean_ip (client_ip : string) : string :=
  if negb (String.eqb client_ip "") && negb (IPAddress.ip_address client_ip)
  then "" else client_ip.

(** Step (b): the [fbp] cookie; [re.match] on a value that is not a [str]
    raises [TypeError]. *)
Definition clean_fbp (fbp_val : pyval) : result pyval :=
  if truthy fbp_val then
    match fbp_val with
    | PStr s => if FBP_REGEX_match s then Ok fbp_val else Ok (PStr "")
    | _ => Raise TypeError
    end
  else Ok fbp_val.

(** Step (d): the null filter. *)
Definition keep_entry (v : pyval) : bool :=
  negb (is_None v) && negb (str_lower_is_null v).

Definition null_filter (d : pydict) : pydict :=
  filter (fun kv : string * pyval => keep_entry kv.2 = true) d.

(** The [try: float(...) except (ValueError, TypeError): 0.0] block. *)
Definition coerce_value (v : pyval) : result spec_float :=
  match py_float v with
  | Ok x => Ok x
  | Raise ValueError => Ok float_zero
  | Raise TypeError => Ok float_zero
  | Raise e => Raise e
  end.

(** Step (e): value coercion and the currency requirement. *)
Definition check_value_currency (cleaned : pydict) (request_id : string)
  : result pydict :=
  match cleaned !! "value" with
  | Some v =>
      x ← coerce_value v;
      let cleaned' := <["value" := PFloat x]> cleaned in
      if negb (truthy (dict_get cleaned' "currency" PNone))
      then Raise (currency_required request_id)
      else Ok cleaned'
  | None => Ok cleaned
  end.

(** The [logger.warning] calls change neither values nor control flow. *)
Definition validate_and_clean_data (payload : ClientPayload)
    (client_info : ClientInfo) (request_id : string) : result ValidatedData :=
  let client_ip := clean_ip (ip client_info) in
  fbp_val ← clean_fbp (dict_get (user_data payload) "fbp" (PStr ""));
  let custom := default ∅ (custom_data payload) in
  cleaned ← check_value_currency (null_filter custom) request_id;
  Ok {| client_ip := client_ip;
        client_user_agent := user_agent client_info;
        fbp := fbp_val;
        fbc := dict_get (user_data payload) "fbc" (PStr "");
        cleaned_custom_data := cleaned |}.

(** ** PayloadAssembler: [build_meta_payload] *)

(** [v or None] *)
Definition or_None (v : pyval) : pyval := py_or v PNone.

Definition drop_None (d : pydict) : pydict :=
  filter (fun kv : string * pyval => is_None kv.2 = false) d.

Definition build_user_data (validated_data : ValidatedData) (hashed_pii : pydict)
  : pydict :=
  let user_data0 : pydict :=
    {[ "client_ip_address" := or_None (PStr (client_ip validated_data));
       "client_user_agent" := or_None (client_user_agent validated_data);
       "fbc" := or_None (fbc validated_data);
       "fbp" := or_None (fbp validated_data) ]} in
  (* user_data.update(hashed_pii): entries of hashed_pii win *)
  drop_None (hashed_pii ∪ user_data0).

Definition build_event_data (payload : ClientPayload)
    (validated_data : ValidatedData) (hashed_pii : pydict) : pydict :=
  let event_data : pydict :=
    {[ "event_name" := PStr (event_name payload);
       "event_time" := PInt (event_time payload);
       "action_source" := PStr (action_source payload);
       "user_data" := PDict (build_user_data validated_data hashed_pii);
       "custom_data" := PDict (cleaned_custom_data validated_data) ]} in
  if opt_truthy (event_source_url payload)
  then <["event_source_url" := PStr (default "" (event_source_url payload))]> event_data
  else event_data.

Definition build_meta_payload (payload : ClientPayload)
    (validated_data : ValidatedData) (hashed_pii : pydict) : pydict :=
  let meta_payload : pydict :=
    {[ "data" := PList [PDict (build_event_data payload validated_data hashed_pii)] ]} in
  if opt_truthy (test_event_code payload)
  then <["test_event_code" := PStr (default "" (test_event_code payload))]> meta_payload
  else meta_payload.

(** ** Pipeline: [process_event] *)

Inductive stage : Type := ExtractInfo | Sanitize | Hash | Assemble | Forward.

#[global] Instance stage_eq_dec : EqDecision stage.
Proof. solve_decision. Defined.

(** A computation together with the stages it has entered, in order. *)
Definition traced (A : Type) : Type := list stage * result A.

Definition call {A : Type} (s : stage) (m : result A) : traced A := ([s], m).

Definition tbind {A B : Type} (m : traced A) (k : A -> traced B) : traced B :=
  match m with
  | (t, Ok a) => let '(t', r) := k a in ((t ++ t')%list, r)
  | (t, Raise e) => (t, Raise e)
  end.

Notation "x <- m ;;; k" := (tbind m (fun x => k))
  (at level 100, m at next level, right associativity, only parsing).

Section Pipeline.

(** [requests.post(url, json=..., timeout=10)], [raise_for_status()] and
    [response.json()]: the external ingestion endpoint. *)
Variable post : string -> pydict -> result pyval.

Definition capi_url (pixel_id access_token : string) : string :=
  ("https://graph.facebook.com/v19.0/" ++ pixel_id
     ++ "/events?access_token=" ++ access_token)%string.

Definition process_event_body (payload : ClientPayload) (request : Request)
    (x_meta_pixel_id x_meta_access_token request_id : string) : traced pyval :=
  client_info <- call ExtractInfo (extract_client_info request payload);;;
  validated_data <- call Sanitize (validate_and_clean_data payload client_info request_id);;;
  hashed_pii <- call Hash (hash_user_data (user_data payload) request_id);;;
  meta_payload <- call Assemble (Ok (build_meta_payload payload validated_data hashed_pii));;;
  response <- call Forward (post (capi_url x_meta_pixel_id x_meta_access_token) meta_payload);;;
  ([], Ok (PDict {[ "request_id" := PStr request_id;
                    "status" := PStr "success";
                    "message" := PStr "Event processed and sent to Meta CAPI successfully";
                    "meta_response" := response ]})).

(** [request_id] stands for the fresh [uuid4]; the [except] clause
    handles [RequestException] only. *)
Definition process_event (payload : ClientPayload) (request : Request)
    (x_meta_pixel_id x_meta_access_token request_id : string) : traced pyval :=
  match process_event_body payload request x_meta_pixel_id x_meta_access_token request_id with
  | (t, Raise (RequestException _)) =>
      (t, Raise (HTTPException 502 request_id "Failed to send event to Meta CAPI"))
  | r => r
  end.

End Pipeline.

(** ** Vocabulary of the properties *)

(** The digest [hash_data] computes for a non-empty string. *)
Definition digest_of (s : string) : string :=
  SHA256.hexdigest (encode (lower (strip s))).

(** The identity values are typed as optional strings: each of the eight
    source fields is missing, [None] or a [str]. *)
Definition pii_typed (user_data : pydict) : Prop :=
  forall key src v, (key, src) ∈ field_map -> user_data !! src = Some v ->
    v = PNone \/ exists s, v = PStr s.

Definition the_custom (payload : ClientPayload) : pydict :=
  default ∅ (custom_data payload).

(** The [fbp] cookie is typed as an optional string: missing, falsy or a
    [str]. *)
Definition fbp_typed (payload : ClientPayload) : Prop :=
  forall v, user_data payload !! "fbp" = Some v -> truthy v = true -> exists s, v = PStr s.


(** The four request signals that go into [user_data] next to the hashed
    identity. *)
Definition signals (vd : ValidatedData) : list (string * pyval) :=
  [ ("client_ip_address", PStr (client_ip vd));
    ("client_user_agent", client_user_agent vd);
    ("fbc", fbc vd);
    ("fbp", fbp vd) ].

Definition opt_field (o : option string) : option pyval :=
  match o with
  | Some s => if String.eqb s "" then None else Some (PStr s)
  | None => None
  end.

(** The stages of [process_event], in the order the code calls them. *)
Definition all_stages : list stage := [ExtractInfo; Sanitize; Hash; Assemble; Forward].

(** The human-readable identity fields [hash_user_data] reads. *)
Definition source_fields : list string := field_map.*2.



(** The response [process_event] returns on success. *)
Definition success_response (request_id : string) (response : pyval) : pyval :=
  PDict {[ "request_id" := PStr request_id;
           "status" := PStr "success";
           "message" := PStr "Event processed and sent to Meta CAPI successfully";
           "meta_response" := response ]}.

(** What the [except requests.exceptions.RequestException] clause makes of
    an exception raised inside the [try] block. *)
Definition surfaced (request_id : string) (e : exn) : exn :=
  match e with
  | RequestException _ => HTTPException 502 request_id "Failed to send event to Meta CAPI"
  | _ => e
  end.

(** Names under which raw identity and agent values arrive and that are
    not provider keys. *)
Definition raw_only_fields : list string :=
  ["email"; "first_name"; "last_name"; "phone"; "city"; "zip"; "user_agent"].

(** The keys an event record may carry. *)
Definition event_keys : list string :=
  ["event_name"; "event_time"; "action_source"; "user_data"; "custom_data";
   "event_source_url"].

(** ** Example inputs *)

Definition purchase : ClientPayload :=
  {| event_name := "Purchase"; event_time := 1703980800;
     event_source_url := None; action_source := "website";
     user_data := {[ "email" := PStr "A@B.com" ]};
     custom_data :=
       Some {[ "currency" := PStr "USD";
               "value" := PFloat (S754_finite false 7036170730324623 (-46)) ]};
     test_event_code := None |}.

Definition with_custom (d : pydict) : ClientPayload :=
  {| event_name := "Purchase"; event_time := 1703980800;
     event_source_url := None; action_source := "website";
     user_data := ∅; custom_data := Some d; test_event_code := None |}.

Definition with_fbp (v : pyval) : ClientPayload :=
  {| event_name := "PageView"; event_time := 1703980800;
     event_source_url := None; action_source := "website";
     user_data := {[ "fbp" := v ]}; custom_data := None; test_event_code := None |}.

Definition from_addr (a : string) : ClientInfo :=
  {| ip := a; user_agent := PStr "Mozilla/5.0" |}.

Definition direct_request : Request :=
  {| x_forwarded_for := Some "203.0.113.7, 10.0.0.1";
     user_agent_header := Some "Mozilla/5.0";
     client_host := Some "10.0.0.1" |}.

Definition purchase_validated : ValidatedData :=
  {| client_ip := "203.0.113.7";
     client_user_agent := PStr "Mozilla/5.0";
     fbp := PStr "";
     fbc := PStr "";
     cleaned_custom_data :=
       {[ "currency" := PStr "USD";
          "value" := PFloat (S754_finite false 7036170730324623 (-46)) ]} |}.

Definition purchase_hashed : pydict :=
  {[ "em" := PStr "fb98d44ad7501a959f3f4f4a3f004fe2d9e581ea6207e218c4b02c08a4d75adf" ]}.

(** Two stand-ins for the ingestion endpoint: one that answers with what
    it was sent, one that times out. *)
Definition echo_endpoint (url : string) (doc : pydict) : result pyval :=
  Ok (PDict {[ "url" := PStr url; "received" := PDict doc ]}).

Definition failing_endpoint (url : string) (doc : pydict) : result pyval :=
  Raise (RequestException "timeout").

Definition numeric_email : ClientPayload :=
  {| event_name := "Lead"; event_time := 1703980800;
     event_source_url := None; action_source := "website";
     user_data := {[ "email" := PInt 123 ]}; custom_data := None;
     test_event_code := None |}.

(** * Properties *)

(** Membership in a list written out in full. *)
Ltac in_list :=
  repeat first [apply list_elem_of_here | apply list_elem_of_further].

(** No entry of a dict written out key by key is [None] when none of the
    values written is. *)
Ltac no_None_entry H :=
  repeat (apply lookup_insert_Some in H as [[_ H] | [_ H]]; [discriminate H|]);
  first [ apply lookup_singleton_Some in H as [_ H]; discriminate H
        | by apply lookup_empty_Some in H ].

(** Keys of a dict written out key by key. *)
Ltac written_keys H :=
  repeat (apply lookup_insert_Some in H as [[<- _] | [_ H]]; [in_list|]);
  apply lookup_singleton_Some in H as [<- _]; in_list.

(** ** Results *)

Lemma is_ok_true {A : Type} (m : result A) : is_ok m = true <-> exists a, m = Ok a.
Proof.
  destruct m as [a|e]; simpl; split; eauto; try discriminate.
  intros [a Ha]; discriminate.
Qed.

(** ** Strings *)










Lemma lstrip_all_spaces w : all_chars is_space w = true -> lstrip w = "".
Proof.
  induction w as [|c w IH]; simpl; [reflexivity|].
  intros [Hc Hw]%andb_true_iff. rewrite Hc. auto.
Qed.



(** ** Digests *)

(** The FIPS 180-4 test vectors: the empty message, one block, two blocks. *)
Example sha256_test_vectors :
  SHA256.hexdigest (encode "")
  = "e3b0c44298fc1c149afbf4c8996fb92427ae41e4649b934ca495991b7852b855"
  /\ SHA256.hexdigest (encode "abc")
     = "ba7816bf8f01cfea414140de5dae2223b00361a396177a9cb410ff61f20015ad"
  /\ SHA256.hexdigest (encode "abcdbcdecdefdefgefghfghighijhijkijkljklmklmnlmnomnopnopq")
     = "248d6a61d20638b8e5c026930c3e6039a33ce45964ff2167f6ecedd419db06c1".
Proof. split; [|split]; vm_compute; reflexivity. Qed.

Lemma hex_digit_lower n : 0 <= n < 16 -> is_lower_hex (SHA256.hex_digit n) = true.
Proof.
  intros Hn.
  assert (Hall : forallb (fun i => is_lower_hex (SHA256.hex_digit (Z.of_nat i)))
                   (seq 0 16) = true) by reflexivity.
  rewrite forallb_forall in Hall.
  rewrite <- (Z2Nat.id n) by lia. apply Hall. apply in_seq. lia.
Qed.

Lemma nibble_lower w i : is_lower_hex (SHA256.nibble w i) = true.
Proof.
  unfold SHA256.nibble. apply hex_digit_lower.
  change 0xf with (Z.ones 4). rewrite Z.land_ones by lia.
  apply Z.mod_pos_bound. lia.
Qed.

Lemma hexdigest_hex64 msg : is_hex64 (SHA256.hexdigest msg).
Proof.
  unfold SHA256.hexdigest. generalize (SHA256.digest msg). intros st.
  split; [reflexivity|].
  unfold SHA256.hex8. cbn [list_ascii_of_string forallb].
  by rewrite !nibble_lower.
Qed.

Lemma hex64_nonempty d : is_hex64 d -> d <> "".
Proof. intros [Hlen _] ->. discriminate. Qed.

(** ** Canonicalizer *)

Lemma truthy_PStr s : truthy (PStr s) = true <-> s <> "".
Proof.
  simpl. destruct (String.eqb_spec s ""); simpl; split; congruence.
Qed.

Lemma hash_data_str s :
  s <> "" -> hash_data (PStr s) = Ok (SHA256.hexdigest (encode (lower (strip s)))).
Proof.
  intros Hs%truthy_PStr. unfold hash_data. by rewrite Hs.
Qed.

(** A truthy value that [hash_data] accepts is a non-empty string. *)
Lemma hash_data_inv v d :
  truthy v = true -> hash_data v = Ok d ->
  exists s, v = PStr s /\ s <> "" /\ d = SHA256.hexdigest (encode (lower (strip s))).
Proof.
  intros Hv. unfold hash_data. rewrite Hv. simpl.
  destruct v; try discriminate. intros [= <-].
  eexists; split; [reflexivity|]. split; [by apply truthy_PStr | reflexivity].
Qed.



(** ** PIIHasher *)

(** What a successful run of the comprehension leaves under each key. *)
Lemma hash_items_inv items : forall acc out,
  NoDup items.*1 -> hash_items items acc = Ok out ->
  (forall k v, (k, v) ∈ items -> truthy v = true ->
     exists s, v = PStr s /\ s <> "" /\ out !! k = Some (PStr (digest_of s)))
  /\ (forall k, (forall v, (k, v) ∈ items -> truthy v = false) -> out !! k = acc !! k).
Proof.
  induction items as [|[k0 v0] rest IH]; intros acc out Hnd Hrun.
  - simpl in Hrun. injection Hrun as <-. split; [|done].
    intros k v Hin. by apply elem_of_nil in Hin.
  - rewrite fmap_cons in Hnd. apply NoDup_cons in Hnd as [Hk0 Hnd]. simpl in Hk0.
    assert (Hfresh : forall v, (k0, v) ∈ rest -> False).
    { intros v Hin. apply Hk0. apply list_elem_of_fmap. by exists (k0, v). }
    simpl in Hrun. destruct (truthy v0) eqn:Hv0.
    + destruct (hash_data v0) as [d|e] eqn:Hd; [|discriminate].
      destruct (hash_data_inv _ _ Hv0 Hd) as (s0 & -> & Hs0 & ->).
      destruct (IH _ _ Hnd Hrun) as [HA HB]. split.
      * intros k v [[= -> ->] | Hin]%elem_of_cons Hv.
        -- exists s0. split; [done|]. split; [done|].
           rewrite HB; [apply lookup_insert_eq|]. intros v Hin. by destruct (Hfresh v).
        -- by apply HA.
      * intros k Hfalsy.
        assert (k <> k0).
        { intros ->. specialize (Hfalsy (PStr s0)). rewrite Hv0 in Hfalsy.
          discriminate Hfalsy. by left. }
        rewrite HB; [by apply lookup_insert_ne|].
        intros v Hin. apply Hfalsy. by right.
    + destruct (IH _ _ Hnd Hrun) as [HA HB]. split.
      * intros k v [[= -> ->] | Hin]%elem_of_cons Hv; [congruence | by apply HA].
      * intros k Hfalsy. apply HB. intros v Hin. apply Hfalsy. by right.
Qed.

Lemma hash_items_ok items : forall acc,
  (forall k v, (k, v) ∈ items -> truthy v = true -> exists s, v = PStr s) ->
  is_ok (hash_items items acc) = true.
Proof.
  induction items as [|[k0 v0] rest IH]; intros acc Hty; [reflexivity|].
  simpl. destruct (truthy v0) eqn:Hv0.
  - destruct (Hty k0 v0) as [s ->]; [by left | done |].
    rewrite hash_data_str by (by apply truthy_PStr).
    apply IH. intros k v Hin. apply (Hty k). by right.
  - apply IH. intros k v Hin. apply (Hty k). by right.
Qed.

Lemma pii_fields_map user_data :
  pii_fields user_data
  = (fun p : string * string => (p.1, dict_get user_data p.2 (PStr ""))) <$> field_map.
Proof. reflexivity. Qed.

Lemma pii_fields_NoDup user_data : NoDup (pii_fields user_data).*1.
Proof. unfold pii_fields. simpl. by apply (bool_decide_unpack _). Qed.

Lemma field_map_functional key src src' :
  (key, src) ∈ field_map -> (key, src') ∈ field_map -> src = src'.
Proof.
  unfold field_map. intros H1 H2.
  repeat (apply elem_of_cons in H1 as [[= -> ->] | H1];
          [repeat (apply elem_of_cons in H2 as [H2 | H2]; [by simplify_eq|]);
           by apply elem_of_nil in H2|]).
  by apply elem_of_nil in H1.
Qed.

Lemma pii_fields_elem user_data k v :
  (k, v) ∈ pii_fields user_data
  <-> exists src, (k, src) ∈ field_map /\ v = dict_get user_data src (PStr "").
Proof.
  rewrite pii_fields_map, list_elem_of_fmap. split.
  - intros [[k' src] [[= -> ->] Hin]]. by exists src.
  - intros (src & Hin & ->). by exists (k, src).
Qed.

(** The source value is a non-empty string exactly when what [.get] returns
    for it is truthy and a string. *)
Lemma dict_get_nonempty (user_data : pydict) src s :
  dict_get user_data src (PStr "") = PStr s -> s <> "" -> user_data !! src = Some (PStr s).
Proof.
  unfold dict_get. destruct (user_data !! src); [congruence|].
  intros [= <-]. done.
Qed.

(** Under a provider key the result holds the digest of the source string
    when that is non-empty, and nothing otherwise. *)
Lemma hash_user_data_key user_data request_id out key src :
  hash_user_data user_data request_id = Ok out -> (key, src) ∈ field_map ->
  (exists s, user_data !! src = Some (PStr s) /\ s <> ""
             /\ out !! key = Some (PStr (digest_of s)))
  \/ (out !! key = None /\ forall s, user_data !! src = Some (PStr s) -> s = "").
Proof.
  intros Hrun Hin. unfold hash_user_data in Hrun.
  destruct (hash_items_inv _ _ _ (pii_fields_NoDup user_data) Hrun) as [HA HB].
  destruct (truthy (dict_get user_data src (PStr ""))) eqn:Hv.
  - left. destruct (HA key (dict_get user_data src (PStr ""))) as (s & Hs & Hne & Hout);
      [apply pii_fields_elem; by exists src | done |].
    exists s. split; [by apply dict_get_nonempty|]. done.
  - right. split.
    + rewrite HB; [apply lookup_empty|].
      intros v (src' & Hin' & ->)%pii_fields_elem.
      by rewrite (field_map_functional _ _ _ Hin' Hin).
    + intros s Hs. unfold dict_get in Hv. rewrite Hs in Hv.
      destruct (decide (s = "")) as [|Hne%truthy_PStr]; congruence.
Qed.

Lemma hash_user_data_other user_data request_id out k :
  hash_user_data user_data request_id = Ok out ->
  (forall src, (k, src) ∉ field_map) -> out !! k = None.
Proof.
  intros Hrun Hk. unfold hash_user_data in Hrun.
  destruct (hash_items_inv _ _ _ (pii_fields_NoDup user_data) Hrun) as [_ HB].
  rewrite HB; [apply lookup_empty|].
  intros v (src & Hin & _)%pii_fields_elem. by destruct (Hk src).
Qed.

(** Every entry sits under a provider key and is a digest. *)
Lemma hash_user_data_values user_data request_id out k x :
  hash_user_data user_data request_id = Ok out -> out !! k = Some x ->
  (exists src, (k, src) ∈ field_map) /\ exists d, x = PStr d /\ is_hex64 d.
Proof.
  intros Hrun Hx.
  destruct (decide (k ∈ field_map.*1)) as [Hin | Hnin].
  - apply list_elem_of_fmap in Hin as [[k' src] [-> Hin]]. simpl in *.
    split; [by exists src|].
    destruct (hash_user_data_key _ _ _ _ _ Hrun Hin) as [(s & _ & _ & Hout) | [Hout _]];
      [|congruence].
    exists (digest_of s). split; [congruence | apply hexdigest_hex64].
  - rewrite (hash_user_data_other _ _ _ _ Hrun) in Hx; [discriminate|].
    intros src Hin. apply Hnin. apply list_elem_of_fmap. by exists (k, src).
Qed.

Lemma hash_user_data_typed_ok user_data request_id :
  (forall key src v, (key, src) ∈ field_map -> user_data !! src = Some v ->
     truthy v = true -> exists s, v = PStr s) ->
  is_ok (hash_user_data user_data request_id) = true.
Proof.
  intros Hty. apply hash_items_ok.
  intros k v (src & Hin & ->)%pii_fields_elem Hv. unfold dict_get in *.
  destruct (user_data !! src) as [v|] eqn:Hsrc; [by apply (Hty k src) | by eexists].
Qed.

(** C1 - for every user-identity mapping, the result of [hash_user_data] has
    an entry under a provider key exactly when the corresponding source
    field holds a non-empty string; that entry is the digest [hash_data]
    returns for the source value; and every entry of the result sits under
    one of the eight provider keys and is a 64-character lowercase
    hexadecimal digest, never a raw value.  On mappings whose identity
    fields are strings (or null) the function does return. *)
Theorem hash_user_data_entries user_data request_id :
  (pii_typed user_data -> is_ok (hash_user_data user_data request_id) = true)
  /\ forall out, hash_user_data user_data request_id = Ok out ->
       (forall key src, (key, src) ∈ field_map ->
          (is_Some (out !! key)
           <-> exists s, user_data !! src = Some (PStr s) /\ s <> "")
          /\ (forall x, out !! key = Some x ->
                exists s d, user_data !! src = Some (PStr s)
                            /\ hash_data (PStr s) = Ok d /\ x = PStr d))
       /\ (forall k x, out !! k = Some x ->
             (exists src, (k, src) ∈ field_map)
             /\ exists d, x = PStr d /\ is_hex64 d).
Proof.
  split.
  - intros Hty. apply hash_user_data_typed_ok.
    intros key src v Hin Hsrc Hv.
    destruct (Hty key src v Hin Hsrc) as [-> | ?]; [discriminate | done].
  - intros out Hrun. split; [|intros k x; by apply (hash_user_data_values _ _ _ _ _ Hrun)].
    intros key src Hin.
    destruct (hash_user_data_key _ _ _ _ _ Hrun Hin)
      as [(s & Hsrc & Hne & Hout) | [Hout Hempty]]; split.
    + split; [intros _; by exists s | intros _; by rewrite Hout].
    + intros x Hx. exists s, (digest_of s).
      split; [done|]. split; [by apply hash_data_str | congruence].
    + split; [rewrite Hout; by intros [? ?] |].
      intros (s & Hsrc & Hne). by destruct Hne; apply Hempty.
    + intros x Hx. congruence.
Qed.

Lemma hash_user_data_entries_witness :
  exists out,
    hash_user_data {[ "email" := PStr "A@B.com"; "phone" := PStr ""; "zip" := PNone ]} "req-1"
    = Ok out
    /\ is_Some (out !! "em") /\ out !! "ph" = None /\ out !! "zp" = None.
Proof.
  pose proof (hash_user_data_entries
    {[ "email" := PStr "A@B.com"; "phone" := PStr ""; "zip" := PNone ]} "req-1") as [Hok Hspec].
  apply is_ok_true in Hok as [out Hout].
  - exists out. split; [exact Hout|].
    destruct (Hspec out Hout) as [Hkeys _].
    split; [|split].
    + apply (Hkeys "em" "email"); [in_list|].
      exists "A@B.com". split; [reflexivity | discriminate].
    + apply eq_None_not_Some. intros Hsome.
      apply (Hkeys "ph" "phone") in Hsome as (s & Hs & Hne);
        [|in_list].
      vm_compute in Hs. congruence.
    + apply eq_None_not_Some. intros Hsome.
      apply (Hkeys "zp" "zip") in Hsome as (s & Hs & Hne);
        [|in_list].
      vm_compute in Hs. congruence.
  - intros key src v Hin Hv. unfold field_map in Hin.
    repeat (apply elem_of_cons in Hin as [[= -> ->] | Hin];
            [vm_compute in Hv; try discriminate Hv; injection Hv as <-; eauto|]).
    by apply elem_of_nil in Hin.
Defined.

(** C7 - a source value made of whitespace only is truthy, so it passes the
    filter of [hash_user_data]; [hash_data] then trims it to nothing and the
    entry sent is the SHA-256 digest of the empty string. *)
Theorem blank_email_yields_empty_digest :
  hash_user_data {[ "email" := PStr " " ]} "req-1"
  = Ok {[ "em" := PStr "e3b0c44298fc1c149afbf4c8996fb92427ae41e4649b934ca495991b7852b855" ]}
  /\ SHA256.hexdigest (encode "")
     = "e3b0c44298fc1c149afbf4c8996fb92427ae41e4649b934ca495991b7852b855".
Proof. split; vm_compute; reflexivity. Qed.




(** ** EventSanitizer *)

Lemma null_filter_lookup (d : pydict) k v :
  null_filter d !! k = Some v <-> d !! k = Some v /\ keep_entry v = true.
Proof. unfold null_filter. by rewrite map_lookup_filter_Some. Qed.

Lemma null_filter_lookup_None (d : pydict) k :
  null_filter d !! k = None
  <-> forall v, d !! k = Some v -> keep_entry v = false.
Proof.
  unfold null_filter. rewrite map_lookup_filter_None. split.
  - intros [Hnone | Hall] v Hv; [congruence|].
    specialize (Hall v Hv). simpl in Hall. by destruct (keep_entry v).
  - intros Hall. right. intros v Hv. simpl. rewrite (Hall v Hv). discriminate.
Qed.

Lemma clean_fbp_typed payload :
  fbp_typed payload ->
  exists f, clean_fbp (dict_get (user_data payload) "fbp" (PStr "")) = Ok f.
Proof.
  intros Hty. unfold dict_get, clean_fbp.
  destruct (user_data payload !! "fbp") as [v|] eqn:Hv; [|by eexists].
  destruct (truthy v) eqn:Htr; [|by eexists].
  destruct (Hty v Hv Htr) as [s ->]. destruct (FBP_REGEX_match s); by eexists.
Qed.

Lemma float_of_Z_raises z e : float_of_Z z = Raise e -> e = OverflowError.
Proof.
  unfold float_of_Z. destruct (binary_normalize _ _ _ _ _); congruence.
Qed.

Lemma py_float_raises v e :
  py_float v = Raise e -> e = TypeError \/ e = ValueError \/ e = OverflowError.
Proof.
  destruct v; simpl; try (intros [= <-]; by auto).
  - intros ->%float_of_Z_raises. auto.
  - intros ->%float_of_Z_raises. auto.
  - destruct (float_of_string s); [discriminate|]. intros [= <-]. auto.
Qed.

Lemma coerce_value_ok v :
  py_float v <> Raise OverflowError -> exists x, coerce_value v = Ok x.
Proof.
  intros Hno. unfold coerce_value.
  destruct (py_float v) as [x|e] eqn:Hf; [by eexists|].
  destruct (py_float_raises _ _ Hf) as [-> | [-> | ->]]; by eauto.
Qed.

Lemma coerce_value_raises v e :
  coerce_value v = Raise e -> py_float v = Raise OverflowError.
Proof.
  unfold coerce_value. destruct (py_float v) as [x|e'] eqn:Hf; [discriminate|].
  destruct (py_float_raises _ _ Hf) as [-> | [-> | ->]]; by try discriminate.
Qed.


Lemma check_value_currency_absent cleaned request_id :
  cleaned !! "value" = None -> check_value_currency cleaned request_id = Ok cleaned.
Proof. intros H. unfold check_value_currency. by rewrite H. Qed.

Lemma check_value_currency_present cleaned request_id v x :
  cleaned !! "value" = Some v -> coerce_value v = Ok x ->
  check_value_currency cleaned request_id
  = if truthy (dict_get cleaned "currency" PNone)
    then Ok (<["value" := PFloat x]> cleaned)
    else Raise (currency_required request_id).
Proof.
  intros Hv Hx. unfold check_value_currency. rewrite Hv, Hx. simpl.
  unfold dict_get. rewrite lookup_insert_ne by discriminate.
  by destruct (truthy _).
Qed.

(** [validate_and_clean_data] once the [fbp] step has returned. *)
Lemma validate_and_clean_data_fbp payload client_info request_id f :
  clean_fbp (dict_get (user_data payload) "fbp" (PStr "")) = Ok f ->
  validate_and_clean_data payload client_info request_id
  = match check_value_currency (null_filter (the_custom payload)) request_id with
    | Ok cleaned =>
        Ok {| client_ip := clean_ip (ip client_info);
              client_user_agent := user_agent client_info;
              fbp := f;
              fbc := dict_get (user_data payload) "fbc" (PStr "");
              cleaned_custom_data := cleaned |}
    | Raise e => Raise e
    end.
Proof.
  intros Hf. unfold validate_and_clean_data. rewrite Hf. reflexivity.
Qed.

(** The sanitizer raises [CurrencyRequired] exactly when the check on the
    cleaned attributes does, provided the [fbp] step returned. *)
Lemma validate_currency_required payload client_info request_id :
  fbp_typed payload ->
  (validate_and_clean_data payload client_info request_id
   = Raise (currency_required request_id)
   <-> check_value_currency (null_filter (the_custom payload)) request_id
       = Raise (currency_required request_id)).
Proof.
  intros [f Hf]%clean_fbp_typed.
  rewrite (validate_and_clean_data_fbp _ _ _ _ Hf).
  destruct (check_value_currency _ _); split; congruence.
Qed.

(** C3, as stated, fails: a [value] that is JSON null is removed by the
    null filter, so a mapping with [value] and no [currency] is accepted. *)
Lemma null_value_without_currency_is_accepted :
  let custom : pydict := {[ "value" := PNone ]} in
  is_Some (custom !! "value")
  /\ custom !! "currency" = None
  /\ exists vd, validate_and_clean_data (with_custom custom) (from_addr "203.0.113.7") "req-1"
                = Ok vd.
Proof.
  split; [by eexists|]. split; [reflexivity|].
  eexists. vm_compute. reflexivity.
Qed.

(** C3 (amended) - on payloads whose [fbp] is an optional string and whose
    surviving [value] does not overflow [float]: a custom-attributes mapping
    whose [value] entry survives the null filter and that has no [currency]
    key fails with [CurrencyRequired] (status 422, carrying the request
    id); and the sanitizer fails with [CurrencyRequired] exactly when the
    attributes left by the null filter hold a [value] entry and no truthy
    [currency] entry. *)
Theorem currency_required_iff payload client_info request_id :
  fbp_typed payload ->
  (forall v, null_filter (the_custom payload) !! "value" = Some v ->
             py_float v <> Raise OverflowError) ->
  (forall v, the_custom payload !! "value" = Some v -> keep_entry v = true ->
             the_custom payload !! "currency" = None ->
             validate_and_clean_data payload client_info request_id
             = Raise (HTTPException 422 request_id
                        "Currency is required when value is provided."))
  /\ (validate_and_clean_data payload client_info request_id
      = Raise (currency_required request_id)
      <-> is_Some (null_filter (the_custom payload) !! "value")
          /\ truthy (dict_get (null_filter (the_custom payload)) "currency" PNone) = false).
Proof.
  intros Hfbp Hno.
  assert (Hiff : validate_and_clean_data payload client_info request_id
      = Raise (currency_required request_id)
      <-> is_Some (null_filter (the_custom payload) !! "value")
          /\ truthy (dict_get (null_filter (the_custom payload)) "currency" PNone) = false).
  { rewrite (validate_currency_required _ _ _ Hfbp).
    destruct (null_filter (the_custom payload) !! "value") as [v|] eqn:Hv.
    - destruct (coerce_value_ok v (Hno v eq_refl)) as [x Hx].
      rewrite (check_value_currency_present _ _ _ _ Hv Hx).
      destruct (truthy _); split; [discriminate | by intros [_ ?] | by eauto | done].
    - rewrite (check_value_currency_absent _ _ Hv).
      split; [discriminate | by intros [[? ?] _]]. }
  split; [|exact Hiff].
  intros v Hv Hkeep Hcur. apply Hiff. split.
  - exists v. by apply null_filter_lookup.
  - unfold dict_get.
    destruct (null_filter (the_custom payload) !! "currency") as [c|] eqn:Hc; [|done].
    apply null_filter_lookup in Hc as [Hc _]. congruence.
Qed.

Lemma currency_required_iff_witness :
  validate_and_clean_data (with_custom {[ "value" := PInt 10 ]}) (from_addr "203.0.113.7") "req-1"
  = Raise (HTTPException 422 "req-1" "Currency is required when value is provided.").
Proof.
  refine (proj1 (currency_required_iff (with_custom {[ "value" := PInt 10 ]})
                   (from_addr "203.0.113.7") "req-1" _ _) (PInt 10) _ _ _).
  - intros v Hv. vm_compute in Hv. discriminate.
  - intros v [Hv _]%null_filter_lookup. vm_compute in Hv. injection Hv as <-.
    vm_compute. discriminate.
  - reflexivity.
  - reflexivity.
  - reflexivity.
Defined.




(** C10 - with a [value] too large for a float, the coercion raises
    [OverflowError], which the [except (ValueError, TypeError)] clause lets
    through before the currency check is reached. *)
Theorem huge_value_raises_overflow :
  let custom : pydict := {[ "value" := PInt (10 ^ 400); "currency" := PStr "NULL" ]} in
  null_filter custom !! "value" = Some (PInt (10 ^ 400))
  /\ str_lower_is_null (PStr "NULL") = true
  /\ null_filter custom !! "currency" = None
  /\ validate_and_clean_data (with_custom custom) (from_addr "203.0.113.7") "req-1"
     = Raise OverflowError.
Proof. repeat split; vm_compute; reflexivity. Qed.

(** Apart from that overflow, a currency spelled like null is dropped and
    the currency requirement fails. *)
Lemma null_currency_is_dropped payload client_info request_id v c :
  fbp_typed payload ->
  the_custom payload !! "value" = Some v -> keep_entry v = true ->
  py_float v <> Raise OverflowError ->
  the_custom payload !! "currency" = Some c -> str_lower_is_null c = true ->
  null_filter (the_custom payload) !! "currency" = None
  /\ validate_and_clean_data payload client_info request_id
     = Raise (currency_required request_id).
Proof.
  intros Hfbp Hv Hkv Hno Hc Hnull.
  assert (Hdrop : null_filter (the_custom payload) !! "currency" = None).
  { apply null_filter_lookup_None. intros c' Hc'.
    assert (c' = c) as -> by congruence.
    unfold keep_entry. rewrite Hnull. by destruct (is_None c). }
  split; [exact Hdrop|].
  apply (validate_currency_required _ _ _ Hfbp).
  assert (Hv' : null_filter (the_custom payload) !! "value" = Some v)
    by (by apply null_filter_lookup).
  destruct (coerce_value_ok v Hno) as [x Hx].
  rewrite (check_value_currency_present _ _ _ _ Hv' Hx).
  unfold dict_get. by rewrite Hdrop.
Qed.

(** *** Field-level corrections *)





(** The regular expression also accepts one trailing newline, since [$]
    matches just before it. *)
Remark FBP_REGEX_trailing_newline :
  FBP_REGEX_match (String.append "fb.1.1554763741205.1234567890" (String "010" ""))
  = true.
Proof. vm_compute. reflexivity. Qed.

(** ** PayloadAssembler *)

Lemma or_None_keep v x :
  or_None v = x /\ is_None x = false <-> x = v /\ truthy v = true.
Proof.
  unfold or_None, py_or. destruct (truthy v) eqn:Hv; split.
  - intros [<- _]. done.
  - intros [-> _]. split; [done|]. by destruct v.
  - intros [<- ?]. discriminate.
  - intros [_ ?]. discriminate.
Qed.

Lemma signal_keys_not_provider k v vd src :
  (k, v) ∈ signals vd -> (k, src) ∉ field_map.
Proof.
  unfold signals, field_map. intros Hin Hsrc.
  repeat (apply elem_of_cons in Hin as [[= -> ->] | Hin];
          [repeat (apply elem_of_cons in Hsrc as [Hsrc | Hsrc]; [discriminate Hsrc|]);
           by apply elem_of_nil in Hsrc|]).
  by apply elem_of_nil in Hin.
Qed.

Lemma build_user_data_lookup vd hp k x :
  (forall k y, hp !! k = Some y ->
     (exists src, (k, src) ∈ field_map) /\ exists d, y = PStr d) ->
  build_user_data vd hp !! k = Some x
  <-> hp !! k = Some x \/ ((k, x) ∈ signals vd /\ truthy x = true).
Proof.
  intros Hhp. unfold build_user_data, drop_None.
  rewrite map_lookup_filter_Some, lookup_union_Some_raw. simpl.
  rewrite !lookup_insert_Some, lookup_singleton_Some. unfold signals.
  rewrite !elem_of_cons, elem_of_nil. split.
  - intros [[Hx | [Hnone Hbase]] Hkeep]; [by left | right].
    destruct Hbase as [[<- Hv] | [_ [[<- Hv] | [_ [[<- Hv] | [_ [<- Hv]]]]]]];
      destruct (proj1 (or_None_keep _ _) (conj Hv Hkeep)) as [-> Htr]; auto 10.
  - intros [Hx | [Hin Htr]].
    + split; [by left|]. destruct (Hhp _ _ Hx) as [_ [d ->]]. done.
    + assert (Hnone : hp !! k = None).
      { destruct (hp !! k) as [y|] eqn:Hy; [|done].
        destruct (Hhp _ _ Hy) as [[src Hsrc] _].
        destruct (signal_keys_not_provider k x vd src); [|done].
        unfold signals. rewrite !elem_of_cons, elem_of_nil. exact Hin. }
      assert (Hkeep : is_None x = false) by (by destruct x).
      split; [|done]. right. split; [done|].
      destruct Hin as [Hin | [Hin | [Hin | [Hin | []]]]]; injection Hin as -> ->;
        pose proof (proj2 (or_None_keep _ _) (conj eq_refl Htr)) as [Hor _];
        rewrite Hor; auto 10.
Qed.

(** C4 - for every event that passed sanitization and hashing, the outbound
    document holds a one-element [data] list; the event's [user_data] is the
    union of the hashed identity with those of [client_ip_address],
    [client_user_agent], [fbc], [fbp] that are non-empty; [custom_data] is
    the cleaned custom attributes; [event_source_url] and [test_event_code]
    are present only when supplied non-empty; and no entry of the document,
    of the event or of [user_data] is [None]. *)
Theorem build_meta_payload_shape payload client_info request_id vd hp :
  validate_and_clean_data payload client_info request_id = Ok vd ->
  hash_user_data (user_data payload) request_id = Ok hp ->
  exists ev ud,
    build_meta_payload payload vd hp !! "data" = Some (PList [PDict ev])
    /\ ev !! "user_data" = Some (PDict ud)
    /\ (forall k x, ud !! k = Some x
                    <-> hp !! k = Some x \/ ((k, x) ∈ signals vd /\ truthy x = true))
    /\ ev !! "custom_data" = Some (PDict (cleaned_custom_data vd))
    /\ ev !! "event_name" = Some (PStr (event_name payload))
    /\ ev !! "event_time" = Some (PInt (event_time payload))
    /\ ev !! "action_source" = Some (PStr (action_source payload))
    /\ ev !! "event_source_url" = opt_field (event_source_url payload)
    /\ build_meta_payload payload vd hp !! "test_event_code"
       = opt_field (test_event_code payload)
    /\ (forall k, ud !! k <> Some PNone)
    /\ (forall k, ev !! k <> Some PNone)
    /\ (forall k, build_meta_payload payload vd hp !! k <> Some PNone).
Proof.
  intros _ Hhp.
  exists (build_event_data payload vd hp), (build_user_data vd hp).
  assert (Hvals : forall k y, hp !! k = Some y ->
            (exists src, (k, src) ∈ field_map) /\ exists d, y = PStr d).
  { intros k y Hy. destruct (hash_user_data_values _ _ _ _ _ Hhp Hy) as [? (d & ? & _)].
    eauto. }
  unfold build_meta_payload, build_event_data, opt_truthy, opt_field.
  generalize (fun k x => build_user_data_lookup vd hp k x Hvals).
  generalize (build_user_data vd hp).
  intros ud Hud.
  assert (HnoNone : forall k, ud !! k <> Some PNone).
  { intros k Hk. apply Hud in Hk as [Hk | [_ Hk]]; [|discriminate].
    destruct (Hvals _ _ Hk) as [_ [d ?]]. discriminate. }
  destruct (event_source_url payload) as [u|]; [destruct (String.eqb u "")|];
    (destruct (test_event_code payload) as [t|]; [destruct (String.eqb t "")|]);
    simpl.
  all: split; [reflexivity|].
  all: split; [reflexivity|].
  all: split; [intros k x; by apply Hud|].
  all: do 6 (split; [reflexivity|]).
  all: split; [exact HnoNone|].
  all: split; intros k Hk; no_None_entry Hk.
Qed.

Lemma build_meta_payload_shape_witness :
  exists ev ud,
    build_meta_payload purchase purchase_validated purchase_hashed !! "data"
    = Some (PList [PDict ev])
    /\ ev !! "user_data" = Some (PDict ud)
    /\ ud !! "em" = Some (PStr (digest_of "a@b.com"))
    /\ ud !! "client_ip_address" = Some (PStr "203.0.113.7")
    /\ ud !! "fbp" = None /\ ud !! "fbc" = None.
Proof.
  destruct (build_meta_payload_shape purchase (from_addr "203.0.113.7") "req-1"
              purchase_validated purchase_hashed)
    as (ev & ud & Hdata & Hud & Hiff & _);
    [vm_compute; reflexivity | vm_compute; reflexivity |].
  exists ev, ud. split; [exact Hdata|]. split; [exact Hud|].
  split; [apply Hiff; left; vm_compute; reflexivity|].
  split; [apply Hiff; right; split; [in_list | reflexivity]|].
  split; apply eq_None_not_Some; intros [x Hx];
    apply Hiff in Hx as [Hx | [Hin Htr]];
    try (vm_compute in Hx; discriminate Hx);
    unfold signals in Hin;
    repeat (apply elem_of_cons in Hin as [Hin | Hin];
            [simplify_eq; discriminate Htr|]);
    by apply elem_of_nil in Hin.
Defined.

(** ** Pipeline *)

(** C6 - when sanitization fails with [CurrencyRequired], [process_event]
    has entered the extraction and sanitization stages once each and
    nothing else: neither hashing, nor assembly, nor the outbound call; and
    the failure reaches the caller as the HTTP 422 exception carrying the
    request id, not rewritten by the [except] clause. *)
Theorem sanitize_failure_aborts (post : string -> pydict -> result pyval)
    payload request pixel_id access_token request_id client_info :
  extract_client_info request payload = Ok client_info ->
  validate_and_clean_data payload client_info request_id
  = Raise (currency_required request_id) ->
  let run := process_event post payload request pixel_id access_token request_id in
  run.1 = [ExtractInfo; Sanitize]
  /\ (Hash ∉ run.1) /\ (Assemble ∉ run.1) /\ (Forward ∉ run.1)
  /\ length (filter (fun s => s = Sanitize) run.1) = 1%nat
  /\ run.2 = Raise (HTTPException 422 request_id
                      "Currency is required when value is provided.").
Proof.
  intros Hex Hval run.
  assert (Hrun : run = ([ExtractInfo; Sanitize], Raise (currency_required request_id))).
  { unfold run, process_event, process_event_body, call, tbind.
    rewrite Hex, Hval. reflexivity. }
  rewrite Hrun. simpl.
  split; [reflexivity|].
  repeat (split; [intros Hin;
                  repeat (apply elem_of_cons in Hin as [Hin | Hin]; [discriminate Hin|]);
                  by apply elem_of_nil in Hin|]).
  split; reflexivity.
Qed.

Lemma sanitize_failure_aborts_witness :
  process_event (fun _ doc => Ok (PDict doc)) (with_custom {[ "value" := PInt 10 ]})
    direct_request "pixel" "token" "req-1"
  = ([ExtractInfo; Sanitize],
     Raise (HTTPException 422 "req-1" "Currency is required when value is provided.")).
Proof.
  destruct (sanitize_failure_aborts (fun _ doc => Ok (PDict doc))
              (with_custom {[ "value" := PInt 10 ]}) direct_request "pixel" "token" "req-1"
              {| ip := "203.0.113.7"; user_agent := PStr "Mozilla/5.0" |})
    as (Htrace & _ & _ & _ & _ & Hres);
    [vm_compute; reflexivity | vm_compute; reflexivity |].
  apply injective_projections; [exact Htrace | exact Hres].
Defined.

(** * Further properties of the code *)

(** ** Canonicalizer *)







(** X2 - the outcomes of [hash_data]: a falsy value gives the empty string;
    a non-empty string gives a 64-character lowercase hexadecimal digest;
    any other truthy value raises [AttributeError], and no other exception
    is possible. *)
Theorem hash_data_outcomes v :
  match hash_data v with
  | Ok d =>
      (truthy v = false /\ d = "")
      \/ (exists s, v = PStr s /\ s <> "" /\ is_hex64 d)
  | Raise e =>
      e = AttributeError /\ truthy v = true /\ forall s, v <> PStr s
  end.
Proof.
  unfold hash_data. destruct (truthy v) eqn:Hv; simpl; [|by left].
  destruct v; try (split; [reflexivity|]; split; [reflexivity | discriminate]).
  right. exists s. split; [reflexivity|].
  split; [by apply truthy_PStr | apply hexdigest_hex64].
Qed.

(** X3 - a string made of whitespace only, under any length, is hashed to
    the SHA-256 digest of the empty message rather than skipped. *)
Theorem hash_data_blank w :
  w <> "" -> all_chars is_space w = true ->
  hash_data (PStr w) = Ok (SHA256.hexdigest []).
Proof.
  intros Hne Hw. rewrite hash_data_str by done.
  assert (Hstrip : strip w = "").
  { unfold strip. by rewrite lstrip_all_spaces. }
  by rewrite Hstrip.
Qed.

Lemma hash_data_blank_witness :
  hash_data (PStr (String "009" (String " " (String "010" ""))))
  = Ok (SHA256.hexdigest []).
Proof. apply hash_data_blank; [discriminate | reflexivity]. Defined.

(** ** PIIHasher *)

(** X4 - [hash_user_data] reads the eight identity fields and nothing else:
    two mappings that agree on them (whatever else they hold, such as
    [fbp], [fbc] or [user_agent]) give the same outcome, and the request id
    plays no part. *)
Theorem hash_user_data_reads_identity_fields_only user_data user_data' request_id request_id' :
  (forall src, src ∈ source_fields -> user_data !! src = user_data' !! src) ->
  hash_user_data user_data request_id = hash_user_data user_data' request_id'.
Proof.
  intros Hagree. unfold hash_user_data. f_equal.
  rewrite !pii_fields_map. apply list_fmap_ext.
  intros i [key src] Hi. simpl. f_equal. unfold dict_get.
  rewrite (Hagree src); [reflexivity|].
  unfold source_fields. apply list_elem_of_fmap. exists (key, src).
  split; [reflexivity|]. by apply list_elem_of_lookup_2 in Hi.
Qed.

Lemma hash_user_data_reads_identity_fields_only_witness :
  hash_user_data {[ "email" := PStr "A@B.com"; "fbp" := PInt 7 ]} "req-1"
  = hash_user_data {[ "email" := PStr "A@B.com"; "user_agent" := PNone ]} "req-2".
Proof.
  apply hash_user_data_reads_identity_fields_only.
  intros src Hsrc. unfold source_fields in Hsrc. simpl in Hsrc.
  repeat (apply elem_of_cons in Hsrc as [-> | Hsrc]; [vm_compute; reflexivity|]).
  by apply elem_of_nil in Hsrc.
Defined.

Lemma hash_items_raises items : forall acc e,
  hash_items items acc = Raise e ->
  e = AttributeError
  /\ exists k v, (k, v) ∈ items /\ truthy v = true /\ forall s, v <> PStr s.
Proof.
  induction items as [|[k0 v0] rest IH]; intros acc e Hrun; [discriminate|].
  simpl in Hrun. destruct (truthy v0) eqn:Hv0.
  - pose proof (hash_data_outcomes v0) as Hout.
    destruct (hash_data v0) as [d|e'].
    + destruct (IH _ _ Hrun) as [He (k & v & Hin & Hrest)].
      split; [done|]. exists k, v. split; [by right | done].
    + injection Hrun as <-. destruct Hout as (-> & _ & Hns).
      split; [done|]. exists k0, v0. split; [by left | done].
  - destruct (IH _ _ Hrun) as [He (k & v & Hin & Hrest)].
    split; [done|]. exists k, v. split; [by right | done].
Qed.

(** X5 - when [hash_user_data] fails, the exception is [AttributeError] and
    some identity field holds a truthy value that is not a string. *)
Theorem hash_user_data_raises user_data request_id e :
  hash_user_data user_data request_id = Raise e ->
  e = AttributeError
  /\ exists key src v,
       (key, src) ∈ field_map /\ user_data !! src = Some v
       /\ truthy v = true /\ forall s, v <> PStr s.
Proof.
  intros Hrun. unfold hash_user_data in Hrun.
  destruct (hash_items_raises _ _ _ Hrun) as [He (k & v & Hin & Hv & Hns)].
  split; [done|].
  apply pii_fields_elem in Hin as (src & Hsrc & ->).
  exists k, src, (dict_get user_data src (PStr "")).
  split; [done|]. split; [|done].
  unfold dict_get in *. destruct (user_data !! src); [done | discriminate].
Qed.

Lemma hash_user_data_raises_witness :
  exists key src v,
    (key, src) ∈ field_map
    /\ ({[ "phone" := PList [PStr "+1234567890"] ]} : pydict) !! src = Some v
    /\ truthy v = true.
Proof.
  destruct (hash_user_data_raises {[ "phone" := PList [PStr "+1234567890"] ]} "req-1"
              AttributeError) as [_ (key & src & v & Hin & Hv & Htr & _)];
    [vm_compute; reflexivity|].
  by exists key, src, v.
Defined.

(** ** FieldValidators: the language of [FBP_REGEX] *)



Lemma slen_zero d : slen d = 0 -> d = "".
Proof. destruct d; [done|]. unfold slen. simpl. lia. Qed.




(** ** EventSanitizer *)

Lemma clean_fbp_raises v e :
  clean_fbp v = Raise e -> e = TypeError /\ truthy v = true /\ forall s, v <> PStr s.
Proof.
  unfold clean_fbp. destruct (truthy v) eqn:Hv; [|discriminate].
  destruct v; try (intros [= <-]; split; [reflexivity|]; split; [reflexivity | discriminate]).
  destruct (FBP_REGEX_match s); discriminate.
Qed.

Lemma py_float_overflow v :
  py_float v = Raise OverflowError ->
  exists z, v = PInt z /\ float_of_Z z = Raise OverflowError.
Proof.
  destruct v; simpl; try discriminate.
  - intros Hb. destruct b; vm_compute in Hb; discriminate Hb.
  - intros Hz. by exists z.
  - destruct (float_of_string s); discriminate.
Qed.

Lemma check_value_currency_raises cleaned request_id e :
  check_value_currency cleaned request_id = Raise e ->
  (e = OverflowError
   /\ exists z, cleaned !! "value" = Some (PInt z) /\ float_of_Z z = Raise OverflowError)
  \/ (e = currency_required request_id
      /\ is_Some (cleaned !! "value")
      /\ truthy (dict_get cleaned "currency" PNone) = false).
Proof.
  unfold check_value_currency.
  destruct (cleaned !! "value") as [v|] eqn:Hv; [|discriminate].
  destruct (coerce_value v) as [x|e'] eqn:Hx.
  - simpl. unfold dict_get. rewrite lookup_insert_ne by discriminate.
    fold (dict_get cleaned "currency" PNone).
    destruct (truthy (dict_get cleaned "currency" PNone)) eqn:Hc; simpl; [discriminate|].
    intros [= <-]. right. split; [done|]. split; [by eexists | done].
  - simpl. intros [= <-]. left.
    pose proof (coerce_value_raises _ _ Hx) as Hov.
    destruct (py_float_overflow _ Hov) as (z & -> & Hz).
    split; [|by exists z].
    unfold coerce_value in Hx. rewrite Hov in Hx. by injection Hx as <-.
Qed.

(** X7 - the sanitizer has three failure modes and no other: [TypeError]
    when [fbp] holds a truthy value that is not a string, [OverflowError]
    when the surviving [value] is an integer too large for a float, and the
    422 [CurrencyRequired] exception when a [value] survives the null
    filter without a truthy [currency]. *)
Theorem validate_and_clean_data_raises payload client_info request_id e :
  validate_and_clean_data payload client_info request_id = Raise e ->
  (e = TypeError
   /\ exists v, user_data payload !! "fbp" = Some v
                /\ truthy v = true /\ forall s, v <> PStr s)
  \/ (e = OverflowError
      /\ exists z, null_filter (the_custom payload) !! "value" = Some (PInt z)
                   /\ float_of_Z z = Raise OverflowError)
  \/ (e = HTTPException 422 request_id "Currency is required when value is provided."
      /\ is_Some (null_filter (the_custom payload) !! "value")
      /\ truthy (dict_get (null_filter (the_custom payload)) "currency" PNone) = false).
Proof.
  intros Hrun.
  destruct (clean_fbp (dict_get (user_data payload) "fbp" (PStr ""))) as [f|e'] eqn:Hf.
  - rewrite (validate_and_clean_data_fbp _ _ _ _ Hf) in Hrun.
    destruct (check_value_currency _ _) as [c|e'] eqn:Hc; [discriminate|].
    injection Hrun as ->. right.
    by apply check_value_currency_raises.
  - unfold validate_and_clean_data in Hrun. rewrite Hf in Hrun.
    injection Hrun as <-. left.
    destruct (clean_fbp_raises _ _ Hf) as (-> & Htr & Hns). split; [done|].
    unfold dict_get in *. destruct (user_data payload !! "fbp") as [v|]; [|discriminate].
    by exists v.
Qed.

Lemma validate_and_clean_data_raises_witness :
  exists v, user_data (with_fbp (PInt 7)) !! "fbp" = Some v /\ truthy v = true.
Proof.
  destruct (validate_and_clean_data_raises (with_fbp (PInt 7)) (from_addr "203.0.113.7")
              "req-1" TypeError) as [(_ & v & Hv & Htr & _) | [(He & _) | (He & _)]];
    [vm_compute; reflexivity | by exists v | discriminate He | discriminate He].
Defined.

Lemma null_filter_id (m : pydict) :
  (forall k v, m !! k = Some v -> keep_entry v = true) -> null_filter m = m.
Proof.
  intros Hkeep. apply map_eq. intros k.
  destruct (m !! k) as [v|] eqn:Hv.
  - apply null_filter_lookup. split; [done | by apply (Hkeep k)].
  - apply null_filter_lookup_None. intros v Hv'. congruence.
Qed.

Lemma keep_entry_spec v :
  keep_entry v = true <-> v <> PNone /\ str_lower_is_null v = false.
Proof.
  unfold keep_entry. rewrite andb_true_iff, !negb_true_iff. split.
  - intros [Hn Hs]. split; [|done]. intros ->. discriminate.
  - intros [Hn Hs]. split; [|done]. by destruct v.
Qed.

(** What a successful currency check returns. *)
Lemma check_value_currency_ok cleaned request_id out :
  check_value_currency cleaned request_id = Ok out ->
  (cleaned !! "value" = None /\ out = cleaned)
  \/ (exists v x, cleaned !! "value" = Some v /\ coerce_value v = Ok x
                  /\ truthy (dict_get cleaned "currency" PNone) = true
                  /\ out = <["value" := PFloat x]> cleaned).
Proof.
  intros Hrun.
  destruct (cleaned !! "value") as [v|] eqn:Hv.
  - right. destruct (coerce_value v) as [x|e] eqn:Hx.
    + rewrite (check_value_currency_present _ _ _ _ Hv Hx) in Hrun.
      destruct (truthy _) eqn:Hc; [|discriminate]. injection Hrun as <-.
      by exists v, x.
    + unfold check_value_currency in Hrun. rewrite Hv, Hx in Hrun. discriminate.
  - left. rewrite (check_value_currency_absent _ _ Hv) in Hrun. by injection Hrun as <-.
Qed.

Lemma validate_and_clean_data_ok payload client_info request_id vd :
  validate_and_clean_data payload client_info request_id = Ok vd ->
  clean_fbp (dict_get (user_data payload) "fbp" (PStr "")) = Ok (fbp vd)
  /\ check_value_currency (null_filter (the_custom payload)) request_id
     = Ok (cleaned_custom_data vd)
  /\ client_ip vd = clean_ip (ip client_info)
  /\ client_user_agent vd = user_agent client_info
  /\ fbc vd = dict_get (user_data payload) "fbc" (PStr "").
Proof.
  intros Hrun.
  destruct (clean_fbp (dict_get (user_data payload) "fbp" (PStr ""))) as [f|e] eqn:Hf.
  - rewrite (validate_and_clean_data_fbp _ _ _ _ Hf) in Hrun.
    destruct (check_value_currency _ _) as [c|e]; [|discriminate].
    injection Hrun as <-. done.
  - unfold validate_and_clean_data in Hrun. rewrite Hf in Hrun. discriminate.
Qed.

(** X8 - the cleaned custom attributes of a sanitized event: no entry is
    null or the text ["null"]; every entry other than [value] is an entry
    of the input, unchanged, and every input entry that is not null-like is
    kept; and when [value] is present it is a float and comes with a truthy
    [currency]. *)
Theorem cleaned_custom_data_invariant payload client_info request_id vd :
  validate_and_clean_data payload client_info request_id = Ok vd ->
  (forall k v, cleaned_custom_data vd !! k = Some v ->
     v <> PNone /\ str_lower_is_null v = false)
  /\ (forall k v, k <> "value" ->
        (cleaned_custom_data vd !! k = Some v
         <-> the_custom payload !! k = Some v /\ keep_entry v = true))
  /\ (is_Some (cleaned_custom_data vd !! "value")
      <-> exists v, the_custom payload !! "value" = Some v /\ keep_entry v = true)
  /\ (forall x, cleaned_custom_data vd !! "value" = Some x ->
        (exists f, x = PFloat f)
        /\ exists c, cleaned_custom_data vd !! "currency" = Some c /\ truthy c = true).
Proof.
  intros (_ & Hcheck & _)%validate_and_clean_data_ok.
  apply check_value_currency_ok in Hcheck
    as [[Hnone ->] | (v & x & Hv & Hx & Hcur & ->)].
  - split; [|split; [|split]].
    + intros k v [_ Hk]%null_filter_lookup. by apply keep_entry_spec.
    + intros k v _. apply null_filter_lookup.
    + rewrite Hnone. split; [by intros [? ?]|].
      intros (v & Hv). apply null_filter_lookup in Hv. congruence.
    + intros x Hx. congruence.
  - split; [|split; [|split]].
    + intros k y [[<- <-] | [_ Hy]]%lookup_insert_Some; [done|].
      apply null_filter_lookup in Hy as [_ Hy]. by apply keep_entry_spec.
    + intros k y Hk. rewrite lookup_insert_ne by done. apply null_filter_lookup.
    + rewrite lookup_insert_eq. split; [|by eexists].
      intros _. exists v. by apply null_filter_lookup.
    + intros y. rewrite lookup_insert_eq. intros [= <-]. split; [by eexists|].
      rewrite lookup_insert_ne by discriminate.
      unfold dict_get in Hcur.
      destruct (null_filter (the_custom payload) !! "currency") as [c|]; [|discriminate].
      by exists c.
Qed.

Lemma cleaned_custom_data_invariant_witness :
  exists vd,
    validate_and_clean_data purchase (from_addr "203.0.113.7") "req-1" = Ok vd
    /\ exists c, cleaned_custom_data vd !! "currency" = Some c /\ truthy c = true.
Proof.
  exists purchase_validated.
  assert (Hrun : validate_and_clean_data purchase (from_addr "203.0.113.7") "req-1"
                 = Ok purchase_validated) by (vm_compute; reflexivity).
  split; [exact Hrun|].
  destruct (cleaned_custom_data_invariant _ _ _ _ Hrun) as (_ & _ & _ & Hval).
  apply (Hval (PFloat (S754_finite false 7036170730324623 (-46)))).
  vm_compute. reflexivity.
Defined.

(** X9 - sanitizing attributes that are already clean changes nothing: the
    cleaned custom attributes of a sanitized event pass the null filter and
    the currency check unchanged. *)
Theorem cleaning_is_idempotent custom request_id request_id' cleaned :
  check_value_currency (null_filter custom) request_id = Ok cleaned ->
  null_filter cleaned = cleaned
  /\ check_value_currency (null_filter cleaned) request_id' = Ok cleaned.
Proof.
  intros Hrun.
  assert (Hid : null_filter cleaned = cleaned).
  { apply null_filter_id. intros k y Hy.
    apply check_value_currency_ok in Hrun
      as [[_ ->] | (v & x & _ & _ & _ & ->)].
    - by apply null_filter_lookup in Hy as [_ ?].
    - apply lookup_insert_Some in Hy as [[_ <-] | [_ Hy]]; [done|].
      by apply null_filter_lookup in Hy as [_ ?]. }
  split; [exact Hid|]. rewrite Hid.
  apply check_value_currency_ok in Hrun
    as [[Hnone ->] | (v & x & Hv & Hx & Hcur & ->)].
  - by apply check_value_currency_absent.
  - rewrite (check_value_currency_present _ request_id' (PFloat x) x);
      [| apply lookup_insert_eq | reflexivity].
    unfold dict_get in *. rewrite lookup_insert_ne by discriminate.
    rewrite Hcur. by rewrite insert_insert_eq.
Qed.

Lemma cleaning_is_idempotent_witness :
  check_value_currency
    (null_filter {[ "currency" := PStr "USD"; "value" := PFloat (S754_zero false) ]}) "req-2"
  = Ok {[ "currency" := PStr "USD"; "value" := PFloat (S754_zero false) ]}.
Proof.
  apply (cleaning_is_idempotent
           {[ "currency" := PStr "USD"; "value" := PStr "abc"; "note" := PNone ]} "req-1").
  vm_compute. reflexivity.
Defined.




(** ** RequestSignalExtractor *)








(** X12 - without a usable [x-forwarded-for] header (missing or empty) the
    origin address is [request.client.host]; the only failure of the
    extractor is the [AttributeError] raised when, in addition,
    [request.client] is [None]. *)
Theorem extract_client_info_fallback request payload :
  (forall e, extract_client_info request payload = Raise e
             <-> e = AttributeError
                 /\ opt_truthy (x_forwarded_for request) = false
                 /\ client_host request = None)
  /\ (forall host, opt_truthy (x_forwarded_for request) = false ->
        client_host request = Some host ->
        exists ci, extract_client_info request payload = Ok ci /\ ip ci = host).
Proof.
  unfold extract_client_info.
  destruct (opt_truthy (x_forwarded_for request)); simpl.
  - split; [|discriminate]. intros e. split; [discriminate | by intros (_ & ? & _)].
  - destruct (client_host request) as [host|]; simpl.
    + split; [intros e; split; [discriminate | by intros (_ & _ & ?)]|].
      intros host' _ [= <-]. by eexists.
    + split; [|discriminate]. intros e. split; [by intros [= <-] | by intros (-> & _)].
Qed.

Lemma extract_client_info_fallback_witness :
  exists ci,
    extract_client_info
      {| x_forwarded_for := Some ""; user_agent_header := None;
         client_host := Some "198.51.100.4" |} purchase = Ok ci
    /\ ip ci = "198.51.100.4".
Proof.
  apply (proj2 (extract_client_info_fallback
           {| x_forwarded_for := Some ""; user_agent_header := None;
              client_host := Some "198.51.100.4" |} purchase)); reflexivity.
Defined.

(** ** PayloadAssembler *)

(** X13 - the outbound document carries no key besides [data] and
    [test_event_code], the latter only when a non-empty code was supplied;
    and its event record carries no key besides the five fixed ones and
    [event_source_url], the latter only when a non-empty URL was supplied. *)
Theorem build_meta_payload_keys payload vd hp k :
  (is_Some (build_meta_payload payload vd hp !! k) ->
   k = "data" \/ (k = "test_event_code" /\ opt_truthy (test_event_code payload) = true))
  /\ (is_Some (build_event_data payload vd hp !! k) ->
      k ∈ event_keys
      /\ (k = "event_source_url" -> opt_truthy (event_source_url payload) = true)).
Proof.
  split.
  - unfold build_meta_payload. intros [x Hx].
    destruct (opt_truthy (test_event_code payload)).
    + apply lookup_insert_Some in Hx as [[<- _] | [_ Hx]]; [by right|].
      apply lookup_singleton_Some in Hx as [<- _]. by left.
    + apply lookup_singleton_Some in Hx as [<- _]. by left.
  - unfold build_event_data, event_keys. intros [x Hx].
    destruct (opt_truthy (event_source_url payload)).
    + split; [|done]. written_keys Hx.
    + split; [written_keys Hx|]. intros ->.
      repeat (apply lookup_insert_Some in Hx as [[? _] | [_ Hx]]; [discriminate|]).
      by apply lookup_singleton_Some in Hx as [? _].
Qed.

(** X14 - what leaves in [user_data]: every entry is either a
    64-character digest under a provider key or one of the four request
    signals, non-empty; none of the raw field names [email], [first_name],
    [last_name], [phone], [city], [zip], [user_agent] is ever a key. *)
Theorem user_data_holds_digests_and_signals user_data request_id vd hp :
  hash_user_data user_data request_id = Ok hp ->
  (forall k x, build_user_data vd hp !! k = Some x ->
     (exists src d, (k, src) ∈ field_map /\ x = PStr d /\ is_hex64 d)
     \/ ((k, x) ∈ signals vd /\ truthy x = true))
  /\ (forall k, k ∈ raw_only_fields -> build_user_data vd hp !! k = None).
Proof.
  intros Hhp.
  assert (Hvals : forall k y, hp !! k = Some y ->
            (exists src, (k, src) ∈ field_map) /\ exists d, y = PStr d).
  { intros k y Hy. destruct (hash_user_data_values _ _ _ _ _ Hhp Hy) as [? (d & ? & _)].
    eauto. }
  assert (Hent : forall k x, build_user_data vd hp !! k = Some x ->
     (exists src d, (k, src) ∈ field_map /\ x = PStr d /\ is_hex64 d)
     \/ ((k, x) ∈ signals vd /\ truthy x = true)).
  { intros k x [Hx | Hsig]%(build_user_data_lookup _ _ _ _ Hvals); [left | by right].
    destruct (hash_user_data_values _ _ _ _ _ Hhp Hx) as [[src Hsrc] (d & -> & Hd)].
    by exists src, d. }
  split; [exact Hent|].
  intros k Hk. apply eq_None_not_Some. intros [x Hx].
  unfold raw_only_fields in Hk.
  destruct (Hent k x Hx) as [(src & _ & Hsrc & _) | [Hsig _]].
  - unfold field_map in Hsrc.
    repeat (apply elem_of_cons in Hk as [-> | Hk];
            [repeat (apply elem_of_cons in Hsrc as [Hsrc | Hsrc]; [discriminate Hsrc|]);
             by apply elem_of_nil in Hsrc|]).
    by apply elem_of_nil in Hk.
  - unfold signals in Hsig.
    repeat (apply elem_of_cons in Hk as [-> | Hk];
            [repeat (apply elem_of_cons in Hsig as [Hsig | Hsig]; [discriminate Hsig|]);
             by apply elem_of_nil in Hsig|]).
    by apply elem_of_nil in Hk.
Qed.

Lemma user_data_holds_digests_and_signals_witness :
  build_user_data purchase_validated purchase_hashed !! "email" = None.
Proof.
  apply (proj2 (user_data_holds_digests_and_signals (user_data purchase) "req-1"
                  purchase_validated purchase_hashed ltac:(vm_compute; reflexivity))).
  in_list.
Defined.

(** ** Pipeline *)

(** X15 - the stages run in the order extract, sanitize, hash, assemble,
    forward, each at most once and none after a failure: the stages entered
    are always an initial part of that sequence, and a successful return
    means all five were entered. *)
Theorem stages_run_in_order (post : string -> pydict -> result pyval)
    payload request pixel_id access_token request_id :
  (process_event post payload request pixel_id access_token request_id).1
    `prefix_of` all_stages
  /\ (forall r,
        (process_event post payload request pixel_id access_token request_id).2 = Ok r ->
        (process_event post payload request pixel_id access_token request_id).1
        = all_stages).
Proof.
  unfold process_event, process_event_body, call, tbind, all_stages.
  destruct (extract_client_info request payload) as [ci|e1];
    [|destruct e1; simpl; (split; [by eexists | discriminate])].
  destruct (validate_and_clean_data payload ci request_id) as [vd|e2];
    [|destruct e2; simpl; (split; [by eexists | discriminate])].
  destruct (hash_user_data (user_data payload) request_id) as [hp|e3];
    [|destruct e3; simpl; (split; [by eexists | discriminate])].
  destruct (post _ _) as [resp|e4];
    [|destruct e4; simpl; (split; [by eexists | discriminate])].
  simpl. split; [by exists [] | reflexivity].
Qed.

(** X16 - when the three stages return and the endpoint answers, the caller
    receives the success record with the request id and the endpoint's
    answer; the endpoint was called at the Graph API URL built from the
    pixel id and token, with the document [build_meta_payload] assembled
    from the sanitized data and the hashed identity. *)
Theorem process_event_success (post : string -> pydict -> result pyval)
    payload request pixel_id access_token request_id ci vd hp response :
  extract_client_info request payload = Ok ci ->
  validate_and_clean_data payload ci request_id = Ok vd ->
  hash_user_data (user_data payload) request_id = Ok hp ->
  post (capi_url pixel_id access_token) (build_meta_payload payload vd hp) = Ok response ->
  process_event post payload request pixel_id access_token request_id
  = (all_stages, Ok (success_response request_id response)).
Proof.
  intros Hci Hvd Hhp Hpost.
  unfold process_event, process_event_body, call, tbind.
  rewrite Hci, Hvd, Hhp, Hpost. reflexivity.
Qed.

Lemma process_event_success_witness :
  process_event echo_endpoint purchase direct_request "1234" "tok" "req-1"
  = (all_stages,
     Ok (success_response "req-1"
           (PDict {[ "url" := PStr "https://graph.facebook.com/v19.0/1234/events?access_token=tok";
                     "received" := PDict (build_meta_payload purchase purchase_validated
                                            purchase_hashed) ]}))).
Proof.
  apply (process_event_success echo_endpoint purchase direct_request "1234" "tok" "req-1"
           (from_addr "203.0.113.7") purchase_validated purchase_hashed);
    vm_compute; reflexivity.
Defined.

(** X17 - when the outbound call fails, all five stages were entered and
    the caller receives the exception of the call, except that a
    [RequestException] is replaced by the 502 exception carrying the request
    id. *)
Theorem process_event_forward_failure (post : string -> pydict -> result pyval)
    payload request pixel_id access_token request_id ci vd hp e :
  extract_client_info request payload = Ok ci ->
  validate_and_clean_data payload ci request_id = Ok vd ->
  hash_user_data (user_data payload) request_id = Ok hp ->
  post (capi_url pixel_id access_token) (build_meta_payload payload vd hp) = Raise e ->
  process_event post payload request pixel_id access_token request_id
  = (all_stages, Raise (surfaced request_id e))
  /\ (forall msg, e = RequestException msg ->
        (process_event post payload request pixel_id access_token request_id).2
        = Raise (HTTPException 502 request_id "Failed to send event to Meta CAPI")).
Proof.
  intros Hci Hvd Hhp Hpost.
  assert (Hrun : process_event post payload request pixel_id access_token request_id
                 = (all_stages, Raise (surfaced request_id e))).
  { unfold process_event, process_event_body, call, tbind.
    rewrite Hci, Hvd, Hhp, Hpost. by destruct e. }
  split; [exact Hrun|]. intros msg ->. by rewrite Hrun.
Qed.

Lemma process_event_forward_failure_witness :
  process_event failing_endpoint purchase direct_request "1234" "tok" "req-1"
  = (all_stages, Raise (HTTPException 502 "req-1" "Failed to send event to Meta CAPI")).
Proof.
  apply (process_event_forward_failure failing_endpoint purchase direct_request
           "1234" "tok" "req-1" (from_addr "203.0.113.7") purchase_validated
           purchase_hashed (RequestException "timeout"));
    vm_compute; reflexivity.
Defined.

(** X18 - a failure of extraction, sanitization or hashing reaches the
    caller as the very exception the stage raised, never rewritten into the
    502 of the outbound call, and no later stage is entered. *)
Theorem stage_failures_reach_caller (post : string -> pydict -> result pyval)
    payload request pixel_id access_token request_id :
  (forall e, extract_client_info request payload = Raise e ->
     process_event post payload request pixel_id access_token request_id
     = ([ExtractInfo], Raise e))
  /\ (forall ci e, extract_client_info request payload = Ok ci ->
        validate_and_clean_data payload ci request_id = Raise e ->
        process_event post payload request pixel_id access_token request_id
        = ([ExtractInfo; Sanitize], Raise e))
  /\ (forall ci vd e, extract_client_info request payload = Ok ci ->
        validate_and_clean_data payload ci request_id = Ok vd ->
        hash_user_data (user_data payload) request_id = Raise e ->
        process_event post payload request pixel_id access_token request_id
        = ([ExtractInfo; Sanitize; Hash], Raise e)).
Proof.
  split; [|split].
  - intros e He.
    pose proof (proj1 (proj1 (extract_client_info_fallback request payload) e) He)
      as (-> & _).
    unfold process_event, process_event_body, call, tbind. by rewrite He.
  - intros ci e Hci He.
    unfold process_event, process_event_body, call, tbind. rewrite Hci, He.
    destruct (validate_and_clean_data_raises _ _ _ _ He)
      as [(-> & _) | [(-> & _) | (-> & _)]]; reflexivity.
  - intros ci vd e Hci Hvd He.
    destruct (hash_user_data_raises _ _ _ He) as [-> _].
    unfold process_event, process_event_body, call, tbind.
    by rewrite Hci, Hvd, He.
Qed.

Lemma stage_failures_reach_caller_witness :
  process_event echo_endpoint numeric_email direct_request "1234" "tok" "req-1"
  = ([ExtractInfo; Sanitize; Hash], Raise AttributeError).
Proof.
  refine (proj2 (proj2 (stage_failures_reach_caller echo_endpoint numeric_email
                          direct_request "1234" "tok" "req-1"))
            (from_addr "203.0.113.7")
            {| client_ip := "203.0.113.7"; client_user_agent := PStr "Mozilla/5.0";
               fbp := PStr ""; fbc := PStr ""; cleaned_custom_data := ∅ |}
            AttributeError _ _ _);
    vm_compute; reflexivity.
Defined.

(** ** Sanitizer and assembler together *)



(** X20 - an event without custom attributes ([custom_data] missing or
    null) is never refused for its currency: the cleaned attributes are
    empty, and the event record still carries [custom_data], as the empty
    object. *)
Theorem absent_custom_data_is_empty payload client_info request_id :
  custom_data payload = None ->
  (forall e, validate_and_clean_data payload client_info request_id = Raise e ->
             e = TypeError)
  /\ (forall vd, validate_and_clean_data payload client_info request_id = Ok vd ->
        cleaned_custom_data vd = ∅
        /\ forall hp, build_event_data payload vd hp !! "custom_data" = Some (PDict ∅)).
Proof.
  intros Hnone.
  assert (Hempty : null_filter (the_custom payload) = ∅).
  { unfold the_custom. rewrite Hnone. simpl. unfold null_filter. apply map_filter_empty. }
  split.
  - intros e [(-> & _) | [(_ & z & Hz & _) | (_ & [v Hv] & _)]]%validate_and_clean_data_raises;
      [reflexivity | |]; rewrite Hempty, lookup_empty in *; discriminate.
  - intros vd (_ & Hcheck & _)%validate_and_clean_data_ok.
    rewrite Hempty in Hcheck. rewrite check_value_currency_absent in Hcheck
      by apply lookup_empty.
    injection Hcheck as Hc. split; [done|].
    intros hp. unfold build_event_data. rewrite <- Hc.
    destruct (opt_truthy (event_source_url payload)); reflexivity.
Qed.

Lemma absent_custom_data_is_empty_witness :
  exists vd,
    validate_and_clean_data (with_fbp (PStr "")) (from_addr "203.0.113.7") "req-1" = Ok vd
    /\ cleaned_custom_data vd = ∅.
Proof.
  assert (Hrun : validate_and_clean_data (with_fbp (PStr "")) (from_addr "203.0.113.7") "req-1"
                 = Ok {| client_ip := "203.0.113.7"; client_user_agent := PStr "Mozilla/5.0";
                         fbp := PStr ""; fbc := PStr ""; cleaned_custom_data := ∅ |})
    by (vm_compute; reflexivity).
  eexists. split; [exact Hrun|].
  apply (proj2 (absent_custom_data_is_empty (with_fbp (PStr "")) (from_addr "203.0.113.7")
                  "req-1" eq_refl) _ Hrun).
Defined.
